(** * Price-elasticity analyzer: classification, report and chart

    A shallow embedding of [app.py]: the classifier [classify_asin], the
    report and chart builder [generate_graph], and the handler of the
    generate button with its name-mapping parser.

    Modelling conventions.
    - Numeric cells and thresholds are exact rationals ([Q]); rounding of
      binary floating point and missing cells (NaN) are outside the model.
    - A Python [str] is a [string] holding its UTF-8 bytes.
    - A data frame is the list of its rows, in row order; product ids are
      strings.
    - A Python expression that can raise is a computation in [result]. *)

From Stdlib Require Import QArith Qabs Qminmax String Ascii.
From stdpp Require Import base option list gmap strings sorting.

Local Open Scope string_scope.

(** ** Rational comparisons as decidable propositions *)

#[global] Instance Qle_dec (x y : Q) : Decision (x <= y)%Q.
Proof. unfold Qle. apply _. Defined.

#[global] Instance Qlt_dec (x y : Q) : Decision (x < y)%Q.
Proof. unfold Qlt. apply _. Defined.

(** ** Exceptions *)

Inductive PyErr : Type :=
| TypeError
| IndexError.

Inductive result (A : Type) : Type :=
| Ok (a : A)
| Raise (e : PyErr).

Arguments Ok {A} a.
Arguments Raise {A} e.

#[global] Instance result_ret : MRet result := @Ok.

#[global] Instance result_bind : MBind result :=
  λ A B f m, match m with Ok a => f a | Raise e => Raise e end.

(** [a and b] with a boolean left operand: [b] is evaluated only when [a]
    holds.  [a or b] likewise. *)
Definition py_and (a : bool) (b : result bool) : result bool :=
  if a then b else Ok false.

Definition py_or (a : bool) (b : result bool) : result bool :=
  if a then Ok true else b.

(** A value that is either [None] or a number.  Ordering [None] against a
    number raises [TypeError]. *)
Definition is_None (v : option Q) : bool :=
  match v with None => true | Some _ => false end.

Definition is_not_None (v : option Q) : bool := negb (is_None v).

Definition py_gt (v : option Q) (b : Q) : result bool :=
  match v with
  | None => Raise TypeError
  | Some a => Ok (bool_decide (b < a)%Q)
  end.

Definition py_lt (v : option Q) (b : Q) : result bool :=
  match v with
  | None => Raise TypeError
  | Some a => Ok (bool_decide (a < b)%Q)
  end.

(** ** Data model *)

(** A row of the uploaded table: columns ASIN, 値引き率, 定価, 需要の変化,
    価格弾力性. *)
Record InputRow : Type := mkInputRow {
  in_ASIN : string;
  in_discount : Q;
  in_list_price : Q;
  in_demand_change : Q;
  in_elasticity : Q
}.

(** A row once the column 値引き率_pct has been added. *)
Record Row : Type := mkRow {
  ASIN : string;
  discount : Q;
  list_price : Q;
  demand_change : Q;
  elasticity : Q;
  discount_pct : Q
}.

Abbreviation DataFrame := (list Row).

(** [df['値引き率_pct'] = df['値引き率'].abs() * 100] *)
Definition add_discount_pct (r : InputRow) : Row :=
  {| ASIN := in_ASIN r;
     discount := in_discount r;
     list_price := in_list_price r;
     demand_change := in_demand_change r;
     elasticity := in_elasticity r;
     discount_pct := (Qabs (in_discount r) * 100)%Q |}.

(** ** Column aggregates *)

(** [Series.max()]: the greatest cell; nothing on an empty column. *)
Definition Series_max (s : list Q) : option Q :=
  match s with
  | [] => None
  | x :: s' => Some (foldl Qmax x s')
  end.

Definition Series_sum (s : list Q) : Q := foldr Qplus 0%Q s.

(** [Series.mean()]: the sum divided by the number of cells. *)
Definition Series_mean (s : list Q) : option Q :=
  match s with
  | [] => None
  | _ :: _ => Some (Series_sum s / inject_Z (Z.of_nat (length s)))%Q
  end.

(** ** The classifier *)

Definition Classification : Type := string * string * string * string.

(** [asin_data[asin_data['値引き率_pct'] >= deep_min]] *)
Definition deep_data (deep_min : Q) (asin_data : DataFrame) : DataFrame :=
  filter (λ r, (deep_min <= discount_pct r)%Q) asin_data.

(** [asin_data[(asin_data['値引き率_pct'] >= 5) & (asin_data['値引き率_pct'] <= light_max)]] *)
Definition light_data (light_max : Q) (asin_data : DataFrame) : DataFrame :=
  filter (λ r, (5 <= discount_pct r)%Q ∧ (discount_pct r <= light_max)%Q)
         asin_data.

Definition deep_elasticity (deep_min : Q) (asin_data : DataFrame)
  : option Q :=
  let deep_data := deep_data deep_min asin_data in
  if bool_decide (0 < length deep_data)
  then Series_max (elasticity <$> deep_data) else None.

Definition light_elasticity_max (light_max : Q) (asin_data : DataFrame)
  : option Q :=
  let light_data := light_data light_max asin_data in
  if bool_decide (0 < length light_data)
  then Series_max (elasticity <$> light_data) else None.

Definition light_elasticity_avg (light_max : Q) (asin_data : DataFrame)
  : option Q :=
  let light_data := light_data light_max asin_data in
  if bool_decide (0 < length light_data)
  then Series_mean (elasticity <$> light_data) else None.

(** The body of [classify_asin] below the three aggregates.  A nested [if]
    without [else] falls through to the final [return]. *)
Definition classify_asin (asin_data : DataFrame)
    (threshold_high light_max deep_min : Q) : result Classification :=
  let deep_elasticity := deep_elasticity deep_min asin_data in
  let light_elasticity_max := light_elasticity_max light_max asin_data in
  let light_elasticity_avg := light_elasticity_avg light_max asin_data in
  a ← py_and (is_not_None deep_elasticity)
             (py_gt deep_elasticity threshold_high);
  if a : bool then
    s ← py_and (is_not_None light_elasticity_avg)
               (py_lt light_elasticity_avg 0%Q);
    if s : bool
    then Ok ("A", "閾値突破型", "20%オフ推奨", "#2ca02c")
    else Ok ("A", "閾値突破型", "20%オフ推奨", "#2ca02c")
  else
    b ← py_and (is_not_None light_elasticity_max)
               (py_gt light_elasticity_max (threshold_high / 2)%Q);
    if b : bool then Ok ("B", "軽値引き反応型", "5-10%オフ推奨", "#1f77b4")
    else
      c ← py_and (is_not_None light_elasticity_avg)
                 (py_lt light_elasticity_avg 0%Q);
      if c : bool then
        d ← py_or (is_None deep_elasticity)
                  (py_lt deep_elasticity threshold_high);
        if d : bool then Ok ("C", "低空飛行型", "セール見送り", "#d62728")
        else Ok ("D", "検証必要", "データ不足", "#7f7f7f")
      else Ok ("D", "検証必要", "データ不足", "#7f7f7f").

(** ** The closed set of categories *)

Inductive Category : Type := CatA | CatB | CatC | CatD.

Definition letter (c : Category) : string :=
  match c with CatA => "A" | CatB => "B" | CatC => "C" | CatD => "D" end.

Definition category_label (c : Category) : string :=
  match c with
  | CatA => "閾値突破型" | CatB => "軽値引き反応型"
  | CatC => "低空飛行型" | CatD => "検証必要"
  end.

Definition recommendation (c : Category) : string :=
  match c with
  | CatA => "20%オフ推奨" | CatB => "5-10%オフ推奨"
  | CatC => "セール見送り" | CatD => "データ不足"
  end.

Definition display_color (c : Category) : string :=
  match c with
  | CatA => "#2ca02c" | CatB => "#1f77b4"
  | CatC => "#d62728" | CatD => "#7f7f7f"
  end.

Definition tuple_of (c : Category) : Classification :=
  (letter c, category_label c, recommendation c, display_color c).

(** Reading a colour token [#rrggbb] as its three channels. *)
Definition hex_digit (c : ascii) : option N :=
  let n := N_of_ascii c in
  if bool_decide (48 ≤ n ≤ 57)%N then Some (n - 48)%N
  else if bool_decide (97 ≤ n ≤ 102)%N then Some (n - 87)%N
  else None.

Definition hex_pair (h l : ascii) : option N :=
  a ← hex_digit h; b ← hex_digit l; Some (16 * a + b)%N.

Definition rgb_of_token (s : string) : option (N * N * N) :=
  match s with
  | String "#" (String r1 (String r0 (String g1 (String g0
      (String b1 (String b0 EmptyString)))))) =>
      r ← hex_pair r1 r0; g ← hex_pair g1 g0; b ← hex_pair b1 b0;
      Some (r, g, b)
  | _ => None
  end.

Inductive Hue : Type := Green | Blue | Red | Gray | OtherHue.

Definition hue_of (s : string) : Hue :=
  match rgb_of_token s with
  | Some (r, g, b) =>
      if bool_decide (r < g ∧ b < g)%N then Green
      else if bool_decide (r < b ∧ g < b)%N then Blue
      else if bool_decide (g < r ∧ b < r)%N then Red
      else if bool_decide (r = g ∧ g = b) then Gray
      else OtherHue
  | None => OtherHue
  end.

(** ** The algorithm of the specification, section 4.1

    Written from the specification's words, to be compared with
    [classify_asin]. *)
Module Spec.

Definition exists_and (v : option Q) (P : Q → Prop)
    `{∀ x, Decision (P x)} : bool :=
  match v with Some x => bool_decide (P x) | None => false end.

Definition absent_or (v : option Q) (P : Q → Prop)
    `{∀ x, Decision (P x)} : bool :=
  match v with Some x => bool_decide (P x) | None => true end.

(** The greatest element, absent for no element. *)
Definition maximum (l : list Q) : option Q :=
  foldr (λ x acc, Some (from_option (Qmax x) x acc)) None l.

(** The arithmetic mean, absent for no element. *)
Definition mean (l : list Q) : option Q :=
  if bool_decide (l = []) then None
  else Some (foldl Qplus 0%Q l / inject_Z (Z.of_nat (length l)))%Q.

Definition in_deep_band (deep_min : Q) (o : Row) : Prop :=
  (discount_pct o >= deep_min)%Q.

Definition in_light_band (light_max : Q) (o : Row) : Prop :=
  (5 <= discount_pct o)%Q ∧ (discount_pct o <= light_max)%Q.

#[global] Instance in_deep_band_dec dm o : Decision (in_deep_band dm o).
Proof. unfold in_deep_band. apply _. Defined.

#[global] Instance in_light_band_dec lm o : Decision (in_light_band lm o).
Proof. unfold in_light_band. apply _. Defined.

(** The rules in their order; the first that matches wins. *)
Definition first_match (deep_elasticity light_elasticity_max
    light_elasticity_avg : option Q) (threshold_high : Q) : Category :=
  if exists_and deep_elasticity (λ d, (d > threshold_high)%Q) then CatA
  else if exists_and light_elasticity_max
                     (λ m, (m > threshold_high / 2)%Q) then CatB
  else if exists_and light_elasticity_avg (λ a, (a < 0)%Q)
          && absent_or deep_elasticity (λ d, (d < threshold_high)%Q)
  then CatC
  else CatD.

Definition classify (series : list Row)
    (threshold_high light_max deep_min : Q) : Category :=
  let deep_elasticity :=
    maximum (elasticity <$> filter (in_deep_band deep_min) series) in
  let light := elasticity <$> filter (in_light_band light_max) series in
  first_match deep_elasticity (maximum light) (mean light) threshold_high.

End Spec.

(** [classify_asin] with Rule A collapsed into one branch. *)
Definition classify_asin_collapsed (asin_data : DataFrame)
    (threshold_high light_max deep_min : Q) : result Classification :=
  let deep_elasticity := deep_elasticity deep_min asin_data in
  let light_elasticity_max := light_elasticity_max light_max asin_data in
  let light_elasticity_avg := light_elasticity_avg light_max asin_data in
  a ← py_and (is_not_None deep_elasticity)
             (py_gt deep_elasticity threshold_high);
  if a : bool then Ok ("A", "閾値突破型", "20%オフ推奨", "#2ca02c")
  else
    b ← py_and (is_not_None light_elasticity_max)
               (py_gt light_elasticity_max (threshold_high / 2)%Q);
    if b : bool then Ok ("B", "軽値引き反応型", "5-10%オフ推奨", "#1f77b4")
    else
      c ← py_and (is_not_None light_elasticity_avg)
                 (py_lt light_elasticity_avg 0%Q);
      if c : bool then
        d ← py_or (is_None deep_elasticity)
                  (py_lt deep_elasticity threshold_high);
        if d : bool then Ok ("C", "低空飛行型", "セール見送り", "#d62728")
        else Ok ("D", "検証必要", "データ不足", "#7f7f7f")
      else Ok ("D", "検証必要", "データ不足", "#7f7f7f").

(** ** The chart description *)

(** A piece of an f-string: literal text, or a number to be formatted. *)
Inductive FPart : Type :=
| Lit (s : string)
| Num (q : Q).

Record HRect : Type := mkHRect {
  hr_y0 : Q;
  hr_y1 : Q;
  hr_fillcolor : string;
  hr_opacity : Q;
  hr_layer : string;
  hr_line_width : Q
}.

Record HLine : Type := mkHLine {
  hl_y : Q;
  hl_line_dash : string;
  hl_line_color : string;
  hl_line_width : Q;
  hl_annotation_text : option (list FPart);
  hl_annotation_position : option string
}.

Record Scatter : Type := mkScatter {
  sc_x : list Q;
  sc_y : list Q;
  sc_mode : string;
  sc_name : string;
  sc_line_color : string;
  sc_line_width : Q;
  sc_marker_size : Q;
  sc_hovertemplate : string
}.

Record Layout : Type := mkLayout {
  title_text : string;
  title_font_size : Q;
  xaxis_title : string;
  yaxis_title : string;
  hovermode : string;
  legend_yanchor : string;
  legend_y : Q;
  legend_xanchor : string;
  legend_x : Q;
  legend_font_size : Q;
  margin_r : Q;
  template : string;
  height : Q
}.

Record Axis : Type := mkAxis {
  ax_tickvals : option (list Q);
  ax_gridcolor : option string;
  ax_gridwidth : option Q;
  ax_range : option (Q * Q)
}.

Record Figure : Type := mkFigure {
  hrects : list HRect;
  hlines : list HLine;
  traces : list Scatter;
  layout : option Layout;
  xaxes : Axis;
  yaxes : Axis
}.

Definition no_axis : Axis :=
  {| ax_tickvals := None; ax_gridcolor := None;
     ax_gridwidth := None; ax_range := None |}.

(** [go.Figure()] *)
Definition empty_Figure : Figure :=
  {| hrects := []; hlines := []; traces := []; layout := None;
     xaxes := no_axis; yaxes := no_axis |}.

Definition add_hrect (r : HRect) (fig : Figure) : Figure :=
  {| hrects := app (hrects fig) [r]; hlines := hlines fig;
     traces := traces fig; layout := layout fig;
     xaxes := xaxes fig; yaxes := yaxes fig |}.

Definition add_hline (l : HLine) (fig : Figure) : Figure :=
  {| hrects := hrects fig; hlines := app (hlines fig) [l];
     traces := traces fig; layout := layout fig;
     xaxes := xaxes fig; yaxes := yaxes fig |}.

Definition add_trace (t : Scatter) (fig : Figure) : Figure :=
  {| hrects := hrects fig; hlines := hlines fig;
     traces := app (traces fig) [t]; layout := layout fig;
     xaxes := xaxes fig; yaxes := yaxes fig |}.

Definition update_layout (l : Layout) (fig : Figure) : Figure :=
  {| hrects := hrects fig; hlines := hlines fig;
     traces := traces fig; layout := Some l;
     xaxes := xaxes fig; yaxes := yaxes fig |}.

Definition update_xaxes (a : Axis) (fig : Figure) : Figure :=
  {| hrects := hrects fig; hlines := hlines fig;
     traces := traces fig; layout := layout fig;
     xaxes := a; yaxes := yaxes fig |}.

Definition update_yaxes (a : Axis) (fig : Figure) : Figure :=
  {| hrects := hrects fig; hlines := hlines fig;
     traces := traces fig; layout := layout fig;
     xaxes := xaxes fig; yaxes := a |}.

(** ** The report *)

(** A row of the result table: columns ASIN, 商品名, パターン, 推奨, 定価. *)
Record ReportRow : Type := mkReportRow {
  r_ASIN : string;
  r_name : string;
  r_pattern : string;
  r_recommendation : string;
  r_list_price : Q
}.

(** [Series.unique()]: the distinct values in order of first appearance. *)
Fixpoint unique_from (seen : list string) (l : list string) : list string :=
  match l with
  | [] => []
  | x :: l' =>
      if bool_decide (x ∈ seen) then unique_from seen l'
      else x :: unique_from (x :: seen) l'
  end.

Definition unique (l : list string) : list string := unique_from [] l.

Definition by_discount_pct (a b : Row) : Prop :=
  (discount_pct a <= discount_pct b)%Q.

#[global] Instance by_discount_pct_dec a b : Decision (by_discount_pct a b).
Proof. unfold by_discount_pct. apply _. Defined.

(** [DataFrame.sort_values('値引き率_pct')]: ascending.  The order among
    rows of equal discount is the sort's own; the properties below use only
    that the result is a sorted rearrangement. *)
Definition sort_values (df : DataFrame) : DataFrame :=
  merge_sort by_discount_pct df.

(** [l[i]] on a list *)
Definition getitem {A} (l : list A) (i : nat) : result A :=
  match l !! i with Some x => Ok x | None => Raise IndexError end.

(** [Series.iloc[0]] *)
Definition iloc0 {A} (s : list A) : result A := getitem s 0.

Fixpoint enumerate_from {A} (i : nat) (l : list A) : list (nat * A) :=
  match l with
  | [] => []
  | x :: l' => (i, x) :: enumerate_from (S i) l'
  end.

Definition enumerate {A} (l : list A) : list (nat * A) := enumerate_from 0 l.

(** A [for] loop over [l] threading the state [st]; an exception in the
    body ends the loop. *)
Fixpoint for_each {S A} (body : S → A → result S) (l : list A) (st : S)
  : result S :=
  match l with
  | [] => Ok st
  | x :: l' => st' ← body st x; for_each body l' st'
  end.

Definition colors : list string :=
  [ "#1f77b4"; "#ff7f0e"; "#2ca02c"; "#d62728"; "#9467bd";
    "#8c564b"; "#e377c2"; "#7f7f7f"; "#bcbd22"; "#17becf" ].

(** [df[df['ASIN'] == asin].sort_values('値引き率_pct')] *)
Definition rows_of (df : DataFrame) (asin : string) : DataFrame :=
  sort_values (filter (λ r, ASIN r = asin) df).

(** One turn of the loop over [enumerate(asins)]. *)
Definition plot_asin (df : DataFrame) (asin_names_dict : gmap string string)
    (threshold_high : Q) (st : Figure * list ReportRow) (ia : nat * string)
  : result (Figure * list ReportRow) :=
  let '(fig, results) := st in
  let '(i, asin) := ia in
  let asin_data := rows_of df asin in
  if bool_decide (length asin_data = 0) then Ok (fig, results)
  else
    color ← getitem colors (i mod length colors);
    let display_name := default asin (asin_names_dict !! asin) in
    '(pattern, pattern_name, recommendation, _) ←
      classify_asin asin_data threshold_high 12 15;
    price ← iloc0 (list_price <$> asin_data);
    let results := app results [
      {| r_ASIN := asin;
         r_name := if bool_decide (display_name ≠ asin)
                   then display_name else "";
         r_pattern := pattern ++ ". " ++ pattern_name;
         r_recommendation := recommendation;
         r_list_price := price |} ] in
    let fig := add_trace
      {| sc_x := discount_pct <$> asin_data;
         sc_y := elasticity <$> asin_data;
         sc_mode := "lines+markers";
         sc_name := display_name ++ " (" ++ pattern ++ ")";
         sc_line_color := color;
         sc_line_width := 2.5;
         sc_marker_size := 8;
         sc_hovertemplate :=
           "<b>" ++ display_name ++ "</b><br>"
           ++ "値引き率: %{x:.0f}%<br>"
           ++ "弾力性: %{y:.1f}<br>"
           ++ "<extra></extra>" |} fig in
    Ok (fig, results).

Definition generate_graph (df : DataFrame)
    (asin_names_dict : gmap string string) (threshold_high threshold_low : Q)
  : result (Figure * list ReportRow) :=
  let fig := empty_Figure in
  let asins := unique (ASIN <$> df) in
  let fig := add_hrect
    {| hr_y0 := threshold_high; hr_y1 := 50; hr_fillcolor := "green";
       hr_opacity := 0.1; hr_layer := "below"; hr_line_width := 0 |} fig in
  let fig := add_hrect
    {| hr_y0 := -30; hr_y1 := threshold_low; hr_fillcolor := "red";
       hr_opacity := 0.1; hr_layer := "below"; hr_line_width := 0 |} fig in
  let fig := add_hline
    {| hl_y := threshold_low; hl_line_dash := "solid";
       hl_line_color := "gray"; hl_line_width := 1.5;
       hl_annotation_text := None; hl_annotation_position := None |} fig in
  let fig := add_hline
    {| hl_y := threshold_high; hl_line_dash := "dash";
       hl_line_color := "green"; hl_line_width := 2;
       hl_annotation_text :=
         Some [Lit "推奨ゾーン (弾力性>"; Num threshold_high; Lit ")"];
       hl_annotation_position := Some "top right" |} fig in
  '(fig, results) ←
    for_each (plot_asin df asin_names_dict threshold_high)
             (enumerate asins) (fig, []);
  let fig := update_layout
    {| title_text := "ASIN別 値引き率 vs 価格弾力性";
       title_font_size := 20;
       xaxis_title := "値引き率 (%)";
       yaxis_title := "価格弾力性";
       hovermode := "closest";
       legend_yanchor := "top"; legend_y := 0.99;
       legend_xanchor := "left"; legend_x := 1.02;
       legend_font_size := 11;
       margin_r := 250;
       template := "plotly_white";
       height := 600 |} fig in
  let fig := update_xaxes
    {| ax_tickvals := Some [5; 10; 15; 20; 25]%Q;
       ax_gridcolor := Some "lightgray";
       ax_gridwidth := Some 0.5%Q;
       ax_range := Some (3, 25)%Q |} fig in
  let fig := update_yaxes
    {| ax_tickvals := None;
       ax_gridcolor := Some "lightgray";
       ax_gridwidth := Some 0.5%Q;
       ax_range := Some (-25, 50)%Q |} fig in
  Ok (fig, results).

(** The traces of [ts] added to [fig] one after the other. *)
Definition add_traces (ts : list Scatter) (fig : Figure) : Figure :=
  foldl (λ f t, add_trace t f) fig ts.

(** ** The report of the specification, section 4.2

    Written from the specification's words, to be compared with the table
    that [generate_graph] returns. *)
Module SpecReport.

(** The distinct ids, each at the place of its first appearance. *)
Fixpoint first_appearances (ids : list string) : list string :=
  match ids with
  | [] => []
  | id :: ids' => id :: filter (λ y, y ≠ id) (first_appearances ids')
  end.

Definition observations (rows : list Row) (id : string) : list Row :=
  filter (λ o, ASIN o = id) rows.

(** Empty when the mapping has no entry or maps the id to itself. *)
Definition display_name (names : gmap string string) (id : string)
  : string :=
  match names !! id with
  | None => ""
  | Some n => if bool_decide (n = id) then "" else n
  end.

(** The row of one product; none for a product without observations. *)
Definition row (rows : list Row) (names : gmap string string)
    (threshold_high : Q) (id : string) : option ReportRow :=
  match sort_values (observations rows id) with
  | [] => None
  | first :: rest =>
      let c := Spec.classify (first :: rest) threshold_high 12 15 in
      Some {| r_ASIN := id;
              r_name := display_name names id;
              r_pattern := letter c ++ ". " ++ category_label c;
              r_recommendation := recommendation c;
              r_list_price := list_price first |}
  end.

Definition report (rows : list Row) (names : gmap string string)
    (threshold_high : Q) : list ReportRow :=
  omap (row rows names threshold_high)
       (first_appearances (ASIN <$> rows)).

End SpecReport.

(** ** The name mapping, parsed from pasted text *)

Definition tab : ascii := "009"%char.
Definition comma : ascii := ","%char.
Definition newline : ascii := "010"%char.

(** [str.isspace] on the ASCII range: tab, line feed, vertical tab, form
    feed, carriage return, the four separators 28 to 31 and the space.
    White space outside ASCII is not part of the model. *)
Definition isspace (c : ascii) : bool :=
  let n := N_of_ascii c in
  bool_decide (9 ≤ n ≤ 13)%N || bool_decide (28 ≤ n ≤ 32)%N.

Fixpoint lstrip (s : string) : string :=
  match s with
  | EmptyString => EmptyString
  | String c s' => if isspace c then lstrip s' else s
  end.

Definition rstrip (s : string) : string :=
  String.rev (lstrip (String.rev s)).

(** [s.strip()] *)
Definition strip (s : string) : string := rstrip (lstrip s).

(** [c in s] *)
Fixpoint contains (c : ascii) (s : string) : bool :=
  match s with
  | EmptyString => false
  | String c' s' => Ascii.eqb c' c || contains c s'
  end.

(** [s.split(sep)]: every occurrence of [sep] ends a piece. *)
Fixpoint split (sep : ascii) (s : string) : list string :=
  match s with
  | EmptyString => [EmptyString]
  | String c s' =>
      if Ascii.eqb c sep then EmptyString :: split sep s'
      else match split sep s' with
           | [] => [String c EmptyString]
           | p :: ps => String c p :: ps
           end
  end.

(** [s.split(sep, 1)]: only the first occurrence of [sep] ends a piece. *)
Fixpoint split1 (sep : ascii) (s : string) : list string :=
  match s with
  | EmptyString => [EmptyString]
  | String c s' =>
      if Ascii.eqb c sep then [EmptyString; s']
      else match split1 sep s' with
           | [] => [String c EmptyString]
           | p :: ps => String c p :: ps
           end
  end.

(** The body of the loop over the lines: [None] stands for [continue] and
    for a [parts] that has not two elements. *)
Definition parse_line (line : string) : option (string * string) :=
  parts ← (if contains tab line then Some (split1 tab line)
           else if contains comma line then Some (split1 comma line)
           else None);
  match parts with
  | [p0; p1] => Some (strip p0, strip p1)
  | _ => None
  end.

Definition parse_asin_names (asin_name_input : string)
  : gmap string string :=
  if negb (bool_decide (asin_name_input = ""))
     && negb (bool_decide (strip asin_name_input = ""))
  then
    foldl (λ d line,
             match parse_line line with
             | Some (k, v) => <[k := v]> d
             | None => d
             end)
          ∅ (split newline (strip asin_name_input))
  else ∅.

(** The reading of the specification, section 6: the line is cut at its
    first tab or comma, whichever of the two comes first. *)
Module SpecNames.

Definition is_separator (c : ascii) : bool :=
  Ascii.eqb c tab || Ascii.eqb c comma.

Fixpoint cut_at_first_separator (line : string)
  : option (string * string) :=
  match line with
  | EmptyString => None
  | String c s' =>
      if is_separator c then Some (EmptyString, s')
      else '(a, b) ← cut_at_first_separator s'; Some (String c a, b)
  end.

Definition parse_line (line : string) : option (string * string) :=
  '(a, b) ← cut_at_first_separator line; Some (strip a, strip b).

End SpecNames.

(** ** The generate button *)

(** The sidebar's four numbers. *)
Record Config : Type := mkConfig {
  threshold_high : Q;
  threshold_low : Q;
  light_discount_max : Z;
  deep_discount_min : Z
}.

Record SessionState : Type := mkSessionState {
  fig : option Figure;
  df_result : option (list ReportRow);
  graph_generated : bool
}.

(** The body of [if st.button(...)]: an exception raised while generating
    is reported and leaves the session as it was. *)
Definition on_generate (cfg : Config) (df : list InputRow)
    (asin_name_input : string) (st : SessionState) : SessionState :=
  let df := add_discount_pct <$> df in
  let asin_names_dict := parse_asin_names asin_name_input in
  match generate_graph df asin_names_dict
                       (threshold_high cfg) (threshold_low cfg) with
  | Ok (f, r) =>
      {| fig := Some f; df_result := Some r; graph_generated := true |}
  | Raise _ => st
  end.

(** ** Sample data *)

(** An observation of one product at discount [pct] with elasticity [e]. *)
Definition obs (pct e : Q) : Row :=
  {| ASIN := "B0SAMPLE01"; discount := (- (pct / 100))%Q;
     list_price := 1500%Q; demand_change := 0%Q;
     elasticity := e; discount_pct := pct |}.

Definition obs_priced (pct e price demand : Q) : Row :=
  {| ASIN := "B0SAMPLE04"; discount := (- (pct / 100))%Q;
     list_price := price; demand_change := demand;
     elasticity := e; discount_pct := pct |}.

(** The sample table of the text area. *)
Definition sample_data : list InputRow :=
  [ mkInputRow "B0SAMPLE01" (-0.09) 1500 (-0.884) (-9.825);
    mkInputRow "B0SAMPLE01" (-0.06) 1500 (-0.837) (-13.954);
    mkInputRow "B0SAMPLE01" (-0.05) 1500 (-0.9) (-17.992);
    mkInputRow "B0SAMPLE01" (-0.2) 1500 3.552 17.758;
    mkInputRow "B0SAMPLE02" (-0.2) 3000 8.105 40.525;
    mkInputRow "B0SAMPLE03" (-0.06) 1800 1.008 16.804;
    mkInputRow "B0SAMPLE03" (-0.07) 1800 0.774 11.051;
    mkInputRow "B0SAMPLE04" (-0.12) 1539 (-0.694) (-5.784);
    mkInputRow "B0SAMPLE04" (-0.05) 1545 (-0.773) (-15.459) ]%Q.

(** A table with one product observed at a 12 percent discount. *)
Definition twelve_percent : list InputRow :=
  [ mkInputRow "B0SAMPLE05" (-0.12) 2000 1.92 16 ]%Q.

Definition default_config : Config :=
  {| threshold_high := 10; threshold_low := 0;
     light_discount_max := 10; deep_discount_min := 20 |}.

Definition initial_state : SessionState :=
  {| fig := None; df_result := None; graph_generated := false |}.

Definition AB_tab_C : string :=
  String "A" (String comma (String "B" (String tab (String "C" "")))).

(** ** Notions used in the statements *)

(** [m] is a greatest element of [l]. *)
Definition is_max (m : Q) (l : list Q) : Prop :=
  m ∈ l ∧ ∀ y, y ∈ l → (y <= m)%Q.

(** Two optional numbers that are both absent, or equal as rationals. *)
Notation "v ≈ w" := (option_Forall2 Qeq v w) (at level 70).

(** Two observations that agree on discount and elasticity. *)
Definition same_point (a b : Row) : Prop :=
  discount_pct a = discount_pct b ∧ elasticity a = elasticity b.

(** What the row of a product holds. *)
Definition row_of_product (df : DataFrame) (names : gmap string string)
    (th : Q) (r : ReportRow) : Prop :=
  ∃ (first : Row) (rest : list Row) (c : Category),
    sort_values (SpecReport.observations df (r_ASIN r)) = first :: rest
    ∧ classify_asin (first :: rest) th 12 15 = Ok (tuple_of c)
    ∧ r_name r = SpecReport.display_name names (r_ASIN r)
    ∧ r_pattern r = (letter c ++ ". " ++ category_label c)%string
    ∧ r_recommendation r = recommendation c
    ∧ r_list_price r = list_price first
    ∧ first ∈ df
    ∧ ASIN first = r_ASIN r
    ∧ ∀ o, o ∈ df → ASIN o = r_ASIN r →
           (discount_pct first <= discount_pct o)%Q.

(** An observation that lies in the deep band or in the light band. *)
Definition in_some_band (light_max deep_min : Q) (o : Row) : Prop :=
  (deep_min <= discount_pct o)%Q
  ∨ ((5 <= discount_pct o)%Q ∧ (discount_pct o <= light_max)%Q).

#[global] Instance in_some_band_dec lm dm o : Decision (in_some_band lm dm o).
Proof. unfold in_some_band. apply _. Defined.

(** What the trace of the product of row [r], the [i]-th of the loop,
    holds. *)
Definition trace_of_product (df : DataFrame) (names : gmap string string)
    (i : nat) (r : ReportRow) (t : Scatter) : Prop :=
  sc_x t = discount_pct <$> rows_of df (r_ASIN r)
  ∧ sc_y t = elasticity <$> rows_of df (r_ASIN r)
  ∧ sc_mode t = "lines+markers"
  ∧ colors !! (i mod 10) = Some (sc_line_color t)
  ∧ ∃ c : Category,
      r_pattern r = letter c ++ ". " ++ category_label c
      ∧ sc_name t
        = default (r_ASIN r) (names !! r_ASIN r) ++ " (" ++ letter c ++ ")".

(** Two rows that agree on every column but the raw discount rate and
    the demand change. *)
Definition same_columns (a b : Row) : Prop :=
  ASIN a = ASIN b
  ∧ list_price a = list_price b
  ∧ elasticity a = elasticity b
  ∧ discount_pct a = discount_pct b.

(** The row with the sign of its discount rate changed. *)
Definition negate_discount (r : InputRow) : InputRow :=
  {| in_ASIN := in_ASIN r;
     in_discount := (- in_discount r)%Q;
     in_list_price := in_list_price r;
     in_demand_change := in_demand_change r;
     in_elasticity := in_elasticity r |}.

(** The names that the lines [lines] give for the id [k], in the order of
    the lines. *)
Definition names_given (k : string) (lines : list string) : list string :=
  snd <$> filter (λ kv : string * string, kv.1 = k) (omap parse_line lines).

(** * Properties *)

Local Open Scope list_scope.

(** ** Aggregates *)

Lemma Qmax_cases (x y : Q) : Qmax x y = x ∨ Qmax x y = y.
Proof.
  unfold Qmax, GenericMinMax.gmax. destruct (x ?= y)%Q; auto.
Qed.

Lemma foldl_Qmax_elem (s : list Q) (x : Q) : foldl Qmax x s ∈ x :: s.
Proof.
  revert x. induction s as [|a s IH]; intros x; simpl.
  - apply list_elem_of_here.
  - specialize (IH (Qmax x a)).
    apply elem_of_cons in IH as [-> | IH].
    + destruct (Qmax_cases x a) as [-> | ->]; set_solver.
    + set_solver.
Qed.

Lemma foldl_Qmax_ge_init (s : list Q) (x : Q) : (x <= foldl Qmax x s)%Q.
Proof.
  revert x. induction s as [|a s IH]; intros x; simpl.
  - apply Qle_refl.
  - eapply Qle_trans; [apply Q.le_max_l | apply IH].
Qed.

Lemma foldl_Qmax_upper (s : list Q) (x y : Q) :
  y ∈ x :: s → (y <= foldl Qmax x s)%Q.
Proof.
  revert x. induction s as [|a s IH]; intros x Hy; simpl.
  - apply list_elem_of_singleton in Hy as ->. apply Qle_refl.
  - apply elem_of_cons in Hy as [-> | Hy].
    + eapply Qle_trans; [apply Q.le_max_l | apply foldl_Qmax_ge_init].
    + apply elem_of_cons in Hy as [-> | Hy].
      * eapply Qle_trans; [apply Q.le_max_r | apply foldl_Qmax_ge_init].
      * apply IH. set_solver.
Qed.

Lemma Series_max_is_max (l : list Q) (m : Q) :
  Series_max l = Some m → is_max m l.
Proof.
  destruct l as [|x s]; simpl; [discriminate|].
  intros [= <-]. split.
  - apply foldl_Qmax_elem.
  - intros y. apply foldl_Qmax_upper.
Qed.

Lemma Series_max_None (l : list Q) : Series_max l = None ↔ l = [].
Proof. destruct l; simpl; split; congruence. Qed.

Lemma maximum_None (l : list Q) : Spec.maximum l = None ↔ l = [].
Proof. destruct l; simpl; split; congruence. Qed.

Lemma maximum_is_max (l : list Q) (m : Q) :
  Spec.maximum l = Some m → is_max m l.
Proof.
  revert m. induction l as [|x l IH]; intros m; [discriminate|].
  change (Spec.maximum (x :: l))
    with (Some (from_option (Qmax x) x (Spec.maximum l))).
  intros [= <-].
  destruct (Spec.maximum l) as [m'|] eqn:E; simpl.
  - destruct (IH m' eq_refl) as [Hin Hub]. split.
    + destruct (Qmax_cases x m') as [-> | ->]; set_solver.
    + intros y [-> | Hy]%elem_of_cons.
      * apply Q.le_max_l.
      * eapply Qle_trans; [apply Hub, Hy | apply Q.le_max_r].
  - apply maximum_None in E. subst l. split.
    + set_solver.
    + intros y ->%list_elem_of_singleton. apply Qle_refl.
Qed.

Lemma is_max_Permutation (l l' : list Q) (m m' : Q) :
  l ≡ₚ l' → is_max m l → is_max m' l' → (m == m')%Q.
Proof.
  intros HP [Hm Hub] [Hm' Hub'].
  apply Qle_antisym.
  - apply Hub'. by rewrite <- HP.
  - apply Hub. by rewrite HP.
Qed.


Lemma Series_max_maximum (l : list Q) : Series_max l ≈ Spec.maximum l.
Proof.
  destruct (Series_max l) as [m|] eqn:E, (Spec.maximum l) as [m'|] eqn:E'.
  - constructor.
    eapply (is_max_Permutation l l); eauto using Series_max_is_max, maximum_is_max.
  - apply maximum_None in E'. subst l. discriminate.
  - apply Series_max_None in E. subst l. discriminate.
  - constructor.
Qed.


Lemma foldl_Qplus_sum (l : list Q) (a : Q) :
  (foldl Qplus a l == a + Series_sum l)%Q.
Proof.
  revert a. induction l as [|x l IH]; intros a; simpl.
  - ring.
  - rewrite IH. fold (Series_sum l). ring.
Qed.


Lemma Series_mean_mean (l : list Q) : Series_mean l ≈ Spec.mean l.
Proof.
  destruct l as [|x l]; [constructor|].
  unfold Spec.mean. rewrite bool_decide_eq_false_2 by discriminate.
  cbn [Series_mean]. constructor.
  rewrite foldl_Qplus_sum. by rewrite Qplus_0_l.
Qed.

(** ** The rules *)

#[global] Instance exists_and_gt_proper :
  Proper (option_Forall2 Qeq ==> Qeq ==> eq)
         (λ v b, Spec.exists_and v (λ x, (x > b)%Q)).
Proof.
  intros v w [x y Hxy|] b c Hbc; simpl; [|done].
  apply bool_decide_ext. by rewrite Hxy, Hbc.
Qed.

#[global] Instance exists_and_lt_proper :
  Proper (option_Forall2 Qeq ==> Qeq ==> eq)
         (λ v b, Spec.exists_and v (λ x, (x < b)%Q)).
Proof.
  intros v w [x y Hxy|] b c Hbc; simpl; [|done].
  apply bool_decide_ext. by rewrite Hxy, Hbc.
Qed.

#[global] Instance absent_or_lt_proper :
  Proper (option_Forall2 Qeq ==> Qeq ==> eq)
         (λ v b, Spec.absent_or v (λ x, (x < b)%Q)).
Proof.
  intros v w [x y Hxy|] b c Hbc; simpl; [|done].
  apply bool_decide_ext. by rewrite Hxy, Hbc.
Qed.

Lemma first_match_proper (de de' lmax lmax' lavg lavg' : option Q) (th : Q) :
  de ≈ de' → lmax ≈ lmax' → lavg ≈ lavg' →
  Spec.first_match de lmax lavg th = Spec.first_match de' lmax' lavg' th.
Proof.
  intros Hd Hm Ha. unfold Spec.first_match.
  rewrite (exists_and_gt_proper _ _ Hd th th) by reflexivity.
  rewrite (exists_and_gt_proper _ _ Hm (th / 2)%Q (th / 2)%Q) by reflexivity.
  rewrite (exists_and_lt_proper _ _ Ha 0%Q 0%Q) by reflexivity.
  rewrite (absent_or_lt_proper _ _ Hd th th) by reflexivity.
  reflexivity.
Qed.

(** The code's nested conditionals never raise, and decide as the rules
    in their order do, on the code's own aggregates. *)
Lemma classify_asin_first_match (asin_data : DataFrame) (th lm dm : Q) :
  classify_asin asin_data th lm dm
  = Ok (tuple_of (Spec.first_match (deep_elasticity dm asin_data)
                                   (light_elasticity_max lm asin_data)
                                   (light_elasticity_avg lm asin_data) th)).
Proof.
  unfold classify_asin, Spec.first_match.
  destruct (deep_elasticity dm asin_data) as [d|],
           (light_elasticity_max lm asin_data) as [m|],
           (light_elasticity_avg lm asin_data) as [a|]; simpl;
    repeat (case_bool_decide; simpl); try reflexivity.
Qed.

(** The guards [len(...) > 0] only repeat what the aggregates do on an
    empty column. *)
Lemma deep_elasticity_eq (dm : Q) (asin_data : DataFrame) :
  deep_elasticity dm asin_data
  = Series_max (elasticity <$> deep_data dm asin_data).
Proof.
  unfold deep_elasticity. by destruct (deep_data dm asin_data).
Qed.

Lemma light_elasticity_max_eq (lm : Q) (asin_data : DataFrame) :
  light_elasticity_max lm asin_data
  = Series_max (elasticity <$> light_data lm asin_data).
Proof.
  unfold light_elasticity_max. by destruct (light_data lm asin_data).
Qed.

Lemma light_elasticity_avg_eq (lm : Q) (asin_data : DataFrame) :
  light_elasticity_avg lm asin_data
  = Series_mean (elasticity <$> light_data lm asin_data).
Proof.
  unfold light_elasticity_avg. by destruct (light_data lm asin_data).
Qed.

Lemma deep_data_in_band (dm : Q) (series : list Row) :
  deep_data dm series = filter (Spec.in_deep_band dm) series.
Proof. apply list_filter_iff. intros o. reflexivity. Qed.

Lemma light_data_in_band (lm : Q) (series : list Row) :
  light_data lm series = filter (Spec.in_light_band lm) series.
Proof. apply list_filter_iff. intros o. reflexivity. Qed.

Section Permuted.

Variables l l' : DataFrame.
Hypothesis HP : l ≡ₚ l'.





End Permuted.

(** The code's aggregates are those of the specification. *)
Lemma classify_asin_refines (series : list Row) (th lm dm : Q) :
  classify_asin series th lm dm
  = Ok (tuple_of (Spec.classify series th lm dm)).
Proof.
  rewrite classify_asin_first_match. do 2 f_equal.
  unfold Spec.classify. apply first_match_proper.
  - rewrite deep_elasticity_eq, deep_data_in_band.
    apply Series_max_maximum.
  - rewrite light_elasticity_max_eq, light_data_in_band.
    apply Series_max_maximum.
  - rewrite light_elasticity_avg_eq, light_data_in_band.
    apply Series_mean_mean.
Qed.

Lemma elasticity_filter_same (P : Q → Prop) `{∀ x, Decision (P x)}
    (l l' : DataFrame) :
  Forall2 same_point l l' →
  elasticity <$> filter (λ r, P (discount_pct r)) l
  = elasticity <$> filter (λ r, P (discount_pct r)) l'.
Proof.
  induction 1 as [|a b k k' [Hp He] _ IH]; [done|].
  rewrite !filter_cons, <- Hp.
  destruct (decide (P (discount_pct a))); [|done].
  by rewrite !fmap_cons, He, IH.
Qed.

Section SamePoints.

Variables l l' : DataFrame.
Hypothesis HF : Forall2 same_point l l'.

Lemma deep_elasticity_same (dm : Q) :
  deep_elasticity dm l = deep_elasticity dm l'.
Proof.
  rewrite !deep_elasticity_eq. unfold deep_data.
  by rewrite (elasticity_filter_same (λ p, (dm <= p)%Q) l l' HF).
Qed.

Lemma light_data_same (lm : Q) :
  elasticity <$> light_data lm l = elasticity <$> light_data lm l'.
Proof.
  unfold light_data.
  exact (elasticity_filter_same (λ p, (5 <= p)%Q ∧ (p <= lm)%Q) l l' HF).
Qed.

End SamePoints.

(** ** The classifier *)

(** C1. On every series and thresholds, the classifier returns the tuple
    of the category that the algorithm of section 4.1 computes: the
    aggregates over the deep and light bands, then the rules A, B, C, D in
    this order, the first match winning. *)
Theorem classify_asin_is_reference_algorithm
    (series : list Row) (threshold_high light_max deep_min : Q) :
  classify_asin series threshold_high light_max deep_min
  = Ok (tuple_of (Spec.classify series threshold_high light_max deep_min)).
Proof.
  rewrite classify_asin_first_match. do 2 f_equal.
  unfold Spec.classify. apply first_match_proper.
  - rewrite deep_elasticity_eq, deep_data_in_band.
    apply Series_max_maximum.
  - rewrite light_elasticity_max_eq, light_data_in_band.
    apply Series_max_maximum.
  - rewrite light_elasticity_avg_eq, light_data_in_band.
    apply Series_mean_mean.
Qed.

Lemma tuple_of_inj (c c' : Category) : tuple_of c = tuple_of c' → c = c'.
Proof. by destruct c, c'. Qed.

(** C2. The classifier never raises and returns one complete tuple; its
    category is one of A, B, C, D and fixes the label, the recommendation
    and the colour, which is green, blue, red, gray in this order. *)
Theorem classify_asin_total
    (series : list Row) (threshold_high light_max deep_min : Q) :
  ∃ c : Category,
    classify_asin series threshold_high light_max deep_min
    = Ok (tuple_of c)
    ∧ (∀ c', classify_asin series threshold_high light_max deep_min
             = Ok (tuple_of c') → c' = c)
    ∧ tuple_of c
      = match c with
        | CatA => ("A", "閾値突破型", "20%オフ推奨", "#2ca02c")
        | CatB => ("B", "軽値引き反応型", "5-10%オフ推奨", "#1f77b4")
        | CatC => ("C", "低空飛行型", "セール見送り", "#d62728")
        | CatD => ("D", "検証必要", "データ不足", "#7f7f7f")
        end
    ∧ hue_of (display_color c)
      = match c with
        | CatA => Green | CatB => Blue | CatC => Red | CatD => Gray
        end.
Proof.
  rewrite classify_asin_first_match.
  eexists. split; [reflexivity|]. split.
  - intros c' E. apply tuple_of_inj. congruence.
  - by destruct (Spec.first_match _ _ _ _).
Qed.

Lemma filter_none {A} (P : A → Prop) `{∀ x, Decision (P x)} (l : list A) :
  Forall (λ x, ¬ P x) l → filter P l = [].
Proof.
  induction 1 as [|x l Hx _ IH]; [done|].
  by rewrite filter_cons_False.
Qed.

(** C4. When no observation lies in the light band [5, light_max] and
    none lies at or above deep_min, the three aggregates are absent, no
    comparison on an absent aggregate is evaluated, and the classifier
    returns category D. *)
Theorem classify_asin_no_band_data
    (series : list Row) (threshold_high light_max deep_min : Q) :
  series ≠ [] →
  Forall (λ o, ¬ ((5 <= discount_pct o)%Q
                  ∧ (discount_pct o <= light_max)%Q)) series →
  Forall (λ o, ¬ (deep_min <= discount_pct o)%Q) series →
  deep_elasticity deep_min series = None
  ∧ light_elasticity_max light_max series = None
  ∧ light_elasticity_avg light_max series = None
  ∧ classify_asin series threshold_high light_max deep_min
    = Ok ("D", "検証必要", "データ不足", "#7f7f7f").
Proof.
  intros _ Hlight Hdeep.
  assert (deep_elasticity deep_min series = None) as Hd.
  { unfold deep_elasticity, deep_data. by rewrite filter_none. }
  assert (light_elasticity_max light_max series = None) as Hm.
  { unfold light_elasticity_max, light_data. by rewrite filter_none. }
  assert (light_elasticity_avg light_max series = None) as Ha.
  { unfold light_elasticity_avg, light_data. by rewrite filter_none. }
  repeat split; try assumption.
  unfold classify_asin. by rewrite Hd, Hm, Ha.
Qed.

Lemma classify_asin_no_band_data_witness :
  classify_asin [obs 3 7] 10 12 15
  = Ok ("D", "検証必要", "データ不足", "#7f7f7f").
Proof.
  apply (classify_asin_no_band_data [obs 3 7] 10 12 15).
  - discriminate.
  - apply (bool_decide_unpack _). vm_compute. exact I.
  - apply (bool_decide_unpack _). vm_compute. exact I.
Defined.

(** C5. A deep-band maximum above threshold_high gives category A
    whatever the light band holds, and the classifier equals the one whose
    Rule A is a single branch. *)
Theorem rule_A_first_and_collapsed :
  (∀ (series : list Row) (threshold_high light_max deep_min d : Q),
     deep_elasticity deep_min series = Some d →
     (d > threshold_high)%Q →
     classify_asin series threshold_high light_max deep_min
     = Ok ("A", "閾値突破型", "20%オフ推奨", "#2ca02c"))
  ∧ (∀ (series : list Row) (threshold_high light_max deep_min : Q),
       classify_asin series threshold_high light_max deep_min
       = classify_asin_collapsed series threshold_high light_max deep_min).
Proof.
  split.
  - intros series th lm dm d Hd Hgt.
    unfold classify_asin. rewrite Hd. simpl.
    rewrite bool_decide_eq_true_2 by done. simpl.
    destruct (light_elasticity_avg lm series) as [a|]; simpl; [|done].
    by case_bool_decide.
  - intros series th lm dm.
    unfold classify_asin, classify_asin_collapsed.
    destruct (py_and _ (py_gt (deep_elasticity _ _) _)) as [[]|]; simpl;
      [|done..].
    destruct (light_elasticity_avg lm series) as [a|]; simpl; [|done].
    by case_bool_decide.
Qed.

(** A series whose light band alone would give B. *)
Lemma rule_A_first_and_collapsed_witness :
  light_elasticity_max 12 [obs 6 16.80; obs 20 17.76] = Some 16.80%Q
  ∧ classify_asin [obs 6 16.80; obs 20 17.76] 10 12 15
    = Ok ("A", "閾値突破型", "20%オフ推奨", "#2ca02c").
Proof.
  split; [reflexivity|].
  apply (proj1 rule_A_first_and_collapsed _ 10%Q 12%Q 15%Q 17.76%Q).
  - reflexivity.
  - reflexivity.
Defined.

(** C8. Two series that agree, observation by observation, on discount_pct
    and elasticity are classified alike, whatever their list prices and
    demand changes. *)
Theorem classify_asin_ignores_price_and_demand
    (series series' : list Row) (threshold_high light_max deep_min : Q) :
  Forall2 same_point series series' →
  classify_asin series threshold_high light_max deep_min
  = classify_asin series' threshold_high light_max deep_min.
Proof.
  intros HF. unfold classify_asin.
  rewrite (deep_elasticity_same _ _ HF).
  rewrite !light_elasticity_max_eq, !light_elasticity_avg_eq.
  by rewrite (light_data_same _ _ HF).
Qed.

Lemma classify_asin_ignores_price_and_demand_witness :
  classify_asin [obs_priced 12 (-5.784) 1539 (-0.694);
                 obs_priced 5 (-15.459) 1545 (-0.773)] 10 12 15
  = classify_asin [obs_priced 12 (-5.784) 980 3;
                   obs_priced 5 (-15.459) 0 (-7)] 10 12 15.
Proof.
  apply classify_asin_ignores_price_and_demand.
  repeat constructor.
Defined.



(** ** Distinct ids in order of first appearance *)

Lemma unique_from_first_appearances (seen l : list string) :
  unique_from seen l
  = filter (λ y, y ∉ seen) (SpecReport.first_appearances l).
Proof.
  revert seen. induction l as [|x l IH]; intros seen; [done|].
  cbn [unique_from SpecReport.first_appearances].
  rewrite filter_cons, list_filter_filter.
  case_bool_decide as Hx.
  - rewrite decide_False by (intros Hn; by apply Hn).
    rewrite IH. apply list_filter_iff. intros y. split; [|tauto].
    intros Hy. split; [done|]. by intros ->.
  - rewrite decide_True by done. f_equal.
    rewrite IH. apply list_filter_iff. intros y.
    rewrite not_elem_of_cons. tauto.
Qed.

Lemma unique_first_appearances (l : list string) :
  unique l = SpecReport.first_appearances l.
Proof.
  unfold unique. rewrite unique_from_first_appearances.
  induction (SpecReport.first_appearances l) as [|x k IH]; [done|].
  rewrite filter_cons_True by apply not_elem_of_nil. by rewrite IH.
Qed.

Lemma first_appearances_elem (l : list string) (y : string) :
  y ∈ SpecReport.first_appearances l ↔ y ∈ l.
Proof.
  induction l as [|x l IH]; [done|].
  cbn [SpecReport.first_appearances].
  rewrite !elem_of_cons, list_elem_of_filter, IH.
  destruct (decide (y = x)); tauto.
Qed.

Lemma first_appearances_NoDup (l : list string) :
  NoDup (SpecReport.first_appearances l).
Proof.
  induction l as [|x l IH]; [constructor|].
  cbn [SpecReport.first_appearances]. constructor.
  - rewrite list_elem_of_filter. tauto.
  - by apply NoDup_filter.
Qed.



(** ** The loop over the products *)

Lemma getitem_colors (i : nat) :
  ∃ c, getitem colors (i mod length colors) = Ok c.
Proof.
  unfold getitem.
  destruct (lookup_lt_is_Some_2 colors (i mod length colors)) as [c ->].
  - apply Nat.mod_upper_bound. discriminate.
  - by exists c.
Qed.

Lemma name_column (names : gmap string string) (asin : string) :
  (if bool_decide (default asin (names !! asin) ≠ asin)
   then default asin (names !! asin) else "")
  = SpecReport.display_name names asin.
Proof.
  unfold SpecReport.display_name.
  destruct (names !! asin) as [n|]; simpl.
  - repeat case_bool_decide; congruence.
  - rewrite bool_decide_eq_false_2; [done|]. by intros Hn.
Qed.

Lemma omap_cons_option_list {A B} (f : A → option B) (x : A) (l : list A) :
  omap f (x :: l) = option_list (f x) ++ omap f l.
Proof. simpl. by destruct (f x). Qed.

Lemma add_traces_app (ts ts' : list Scatter) (fig : Figure) :
  add_traces ts' (add_traces ts fig) = add_traces (ts ++ ts') fig.
Proof. unfold add_traces. by rewrite foldl_app. Qed.

(** One turn of the loop never raises: it adds the product's row and
    trace, or nothing for a product without observations. *)
Lemma plot_asin_spec (df : DataFrame) (names : gmap string string) (th : Q)
    (fig : Figure) (res : list ReportRow) (i : nat) (asin : string) :
  ∃ ts, plot_asin df names th (fig, res) (i, asin)
        = Ok (add_traces ts fig,
              res ++ option_list (SpecReport.row df names th asin)).
Proof.
  unfold plot_asin, SpecReport.row.
  change (rows_of df asin)
    with (sort_values (SpecReport.observations df asin)).
  destruct (sort_values (SpecReport.observations df asin)) as [|o os].
  - exists []. simpl. by rewrite app_nil_r.
  - rewrite bool_decide_eq_false_2 by discriminate.
    destruct (getitem_colors i) as [c ->].
    rewrite classify_asin_refines. simpl.
    rewrite name_column.
    eexists [_]. reflexivity.
Qed.

Lemma for_each_plot_asin (df : DataFrame) (names : gmap string string)
    (th : Q) (asins : list string) (i : nat) (fig : Figure)
    (res : list ReportRow) :
  ∃ ts, for_each (plot_asin df names th) (enumerate_from i asins) (fig, res)
        = Ok (add_traces ts fig,
              res ++ omap (SpecReport.row df names th) asins).
Proof.
  revert i fig res. induction asins as [|asin asins IH]; intros i fig res.
  - exists []. simpl. by rewrite app_nil_r.
  - cbn [enumerate_from for_each].
    destruct (plot_asin_spec df names th fig res i asin) as [ts ->].
    destruct (IH (S i) (add_traces ts fig)
                 (res ++ option_list (SpecReport.row df names th asin)))
      as [ts' Hts'].
    exists (ts ++ ts').
    rewrite omap_cons_option_list, app_assoc, <- add_traces_app, <- Hts'.
    reflexivity.
Qed.

Lemma add_traces_static (ts : list Scatter) (fig : Figure) :
  hrects (add_traces ts fig) = hrects fig
  ∧ hlines (add_traces ts fig) = hlines fig
  ∧ layout (add_traces ts fig) = layout fig
  ∧ xaxes (add_traces ts fig) = xaxes fig
  ∧ yaxes (add_traces ts fig) = yaxes fig.
Proof.
  revert fig. induction ts as [|t ts IH]; intros fig; [done|].
  apply (IH (add_trace t fig)).
Qed.

(** [generate_graph] never raises; its table is the report of the
    specification and the products' traces leave the zones, the lines and
    the axes as they were set. *)
Lemma generate_graph_spec (df : DataFrame) (names : gmap string string)
    (th tl : Q) :
  ∃ fig : Figure,
    generate_graph df names th tl = Ok (fig, SpecReport.report df names th)
    ∧ hrects fig
      = [ mkHRect th 50 "green" 0.1 "below" 0;
          mkHRect (-30) tl "red" 0.1 "below" 0 ]
    ∧ hlines fig
      = [ mkHLine tl "solid" "gray" 1.5 None None;
          mkHLine th "dash" "green" 2
            (Some [Lit "推奨ゾーン (弾力性>"; Num th; Lit ")"])
            (Some "top right") ]
    ∧ xaxes fig
      = mkAxis (Some [5; 10; 15; 20; 25]%Q) (Some "lightgray")
               (Some 0.5%Q) (Some (3, 25)%Q)
    ∧ yaxes fig
      = mkAxis None (Some "lightgray") (Some 0.5%Q) (Some (-25, 50)%Q).
Proof.
  unfold generate_graph.
  match goal with
  | |- context [for_each _ (enumerate ?l) (?f, [])] =>
      destruct (for_each_plot_asin df names th l 0 f []) as [ts Hts]
  end.
  unfold enumerate. rewrite Hts. simpl.
  rewrite unique_first_appearances.
  eexists. split; [reflexivity|].
  destruct (add_traces_static ts
    (add_hline (mkHLine th "dash" "green" 2
                  (Some [Lit "推奨ゾーン (弾力性>"; Num th; Lit ")"])
                  (Some "top right"))
      (add_hline (mkHLine tl "solid" "gray" 1.5 None None)
        (add_hrect (mkHRect (-30) tl "red" 0.1 "below" 0)
          (add_hrect (mkHRect th 50 "green" 0.1 "below" 0)
                     empty_Figure)))))
    as (Hr & Hl & _).
  simpl. rewrite Hr, Hl. done.
Qed.

(** ** Sorting by discount *)

#[global] Instance by_discount_pct_trans : Transitive by_discount_pct.
Proof. intros a b c. unfold by_discount_pct. apply Qle_trans. Qed.

#[global] Instance by_discount_pct_total : Total by_discount_pct.
Proof.
  intros a b. unfold by_discount_pct.
  destruct (Qlt_le_dec (discount_pct b) (discount_pct a)) as [H|H]; auto.
  right. by apply Qlt_le_weak.
Qed.

Lemma sort_values_Permutation (df : DataFrame) : sort_values df ≡ₚ df.
Proof. apply merge_sort_Permutation. Qed.

Lemma sort_values_sorted (df : DataFrame) :
  StronglySorted by_discount_pct (sort_values df).
Proof. apply StronglySorted_merge_sort; apply _. Qed.

(** The first row of a sorted table has the least discount. *)
Lemma sort_values_head (df : DataFrame) (o : Row) (os : list Row) :
  sort_values df = o :: os →
  o ∈ df ∧ ∀ o', o' ∈ df → (discount_pct o <= discount_pct o')%Q.
Proof.
  intros E. pose proof (sort_values_Permutation df) as HP.
  pose proof (sort_values_sorted df) as HS. rewrite E in HP, HS.
  split.
  - rewrite <- HP. apply list_elem_of_here.
  - intros o' Ho'. rewrite <- HP in Ho'.
    apply elem_of_cons in Ho' as [-> | Ho'].
    + apply Qle_refl.
    + apply StronglySorted_inv in HS as [_ HF].
      rewrite Forall_forall in HF. by apply HF.
Qed.


(** ** The report *)

Lemma report_ids (df : DataFrame) (names : gmap string string) (th : Q) :
  r_ASIN <$> SpecReport.report df names th
  = SpecReport.first_appearances (ASIN <$> df).
Proof.
  unfold SpecReport.report.
  assert (∀ ids : list string,
            Forall (λ id, id ∈ ASIN <$> df) ids →
            r_ASIN <$> omap (SpecReport.row df names th) ids = ids) as Hids.
  { induction 1 as [|id ids Hid _ IH]; [done|].
    rewrite omap_cons_option_list, fmap_app, IH.
    unfold SpecReport.row.
    destruct (sort_values (SpecReport.observations df id)) as [|o os] eqn:E;
      [|done].
    exfalso.
    apply list_elem_of_fmap in Hid as (r & -> & Hr).
    assert (r ∈ sort_values (SpecReport.observations df (ASIN r))) as Hin.
    { rewrite sort_values_Permutation.
      by apply list_elem_of_filter. }
    rewrite E in Hin. by apply not_elem_of_nil in Hin. }
  apply Hids. apply Forall_forall. intros id.
  by rewrite first_appearances_elem.
Qed.

Lemma report_rows (df : DataFrame) (names : gmap string string) (th : Q) :
  Forall (row_of_product df names th) (SpecReport.report df names th).
Proof.
  unfold SpecReport.report.
  induction (SpecReport.first_appearances (ASIN <$> df)) as [|id ids IH];
    [constructor|].
  rewrite omap_cons_option_list. apply Forall_app. split; [|done].
  unfold SpecReport.row.
  destruct (sort_values (SpecReport.observations df id)) as [|o os] eqn:E;
    [constructor|].
  repeat constructor.
  exists o, os, (Spec.classify (o :: os) th 12 15). simpl.
  destruct (sort_values_head _ _ _ E) as [Ho Hmin].
  apply list_elem_of_filter in Ho as [Hid Ho].
  rewrite E, classify_asin_refines.
  repeat split; try done.
  intros o' Ho' Hid'. apply Hmin. by apply list_elem_of_filter.
Qed.



(** C9. Whatever the data, the figure holds the green band from
    threshold_high to 50, the red band from -30 to threshold_low, the solid
    line at threshold_low, the dashed line at threshold_high annotated with
    its value, the x axis on [3, 25] with ticks 5, 10, 15, 20, 25 and the
    y axis on [-25, 50]. *)
Theorem chart_static_annotations
    (df : DataFrame) (names : gmap string string) (th tl : Q) :
  ∃ (fig : Figure) (results : list ReportRow),
    generate_graph df names th tl = Ok (fig, results)
    ∧ hrects fig
      = [ mkHRect th 50 "green" 0.1 "below" 0;
          mkHRect (-30) tl "red" 0.1 "below" 0 ]
    ∧ hlines fig
      = [ mkHLine tl "solid" "gray" 1.5 None None;
          mkHLine th "dash" "green" 2
            (Some [Lit "推奨ゾーン (弾力性>"; Num th; Lit ")"])
            (Some "top right") ]
    ∧ ax_range (xaxes fig) = Some (3, 25)%Q
    ∧ ax_tickvals (xaxes fig) = Some [5; 10; 15; 20; 25]%Q
    ∧ ax_range (yaxes fig) = Some (-25, 50)%Q
    ∧ ax_tickvals (yaxes fig) = None.
Proof.
  destruct (generate_graph_spec df names th tl)
    as (fig & Hg & Hr & Hl & Hx & Hy).
  exists fig, (SpecReport.report df names th).
  by rewrite Hr, Hl, Hx, Hy.
Qed.

(** C3. The report classifies every product with the bands 12 and 15:
    the configured light_discount_max and deep_discount_min do not reach
    the classifier, so that changing them changes nothing; with the
    default configuration a product observed at 12 percent is reported B,
    where the configured bands 10 and 20 would give D. *)
Theorem bands_fixed_at_call_site :
  (∀ (df : DataFrame) (names : gmap string string) (th tl : Q),
     ∃ (fig : Figure) (results : list ReportRow),
       generate_graph df names th tl = Ok (fig, results)
       ∧ Forall (λ r, ∃ c,
                   classify_asin (rows_of df (r_ASIN r)) th 12 15
                   = Ok (tuple_of c)
                   ∧ r_pattern r
                     = (letter c ++ ". " ++ category_label c)%string
                   ∧ r_recommendation r = recommendation c) results)
  ∧ (∀ (cfg cfg' : Config) (df : list InputRow) (asin_name_input : string)
       (st : SessionState),
       threshold_high cfg = threshold_high cfg' →
       threshold_low cfg = threshold_low cfg' →
       on_generate cfg df asin_name_input st
       = on_generate cfg' df asin_name_input st)
  ∧ (r_pattern <$>
       default [] (df_result (on_generate default_config twelve_percent
                                          "" initial_state))
     = ["B. 軽値引き反応型"]
     ∧ classify_asin (add_discount_pct <$> twelve_percent)
         (threshold_high default_config)
         (inject_Z (light_discount_max default_config))
         (inject_Z (deep_discount_min default_config))
       = Ok (tuple_of CatD)).
Proof.
  split; [|split].
  - intros df names th tl.
    destruct (generate_graph_spec df names th tl) as (fig & Hg & _).
    exists fig, (SpecReport.report df names th). split; [done|].
    eapply Forall_impl; [apply report_rows|].
    intros r (o & os & c & E & Hc & _ & Hp & Hrec & _).
    exists c. unfold rows_of.
    fold (SpecReport.observations df (r_ASIN r)). by rewrite E.
  - intros cfg cfg' df input st Hh Hl.
    unfold on_generate. by rewrite Hh, Hl.
  - split; vm_compute; reflexivity.
Qed.

Lemma bands_fixed_at_call_site_witness :
  on_generate default_config sample_data "" initial_state
  = on_generate (mkConfig 10 0 12 15) sample_data "" initial_state.
Proof.
  apply (proj1 (proj2 bands_fixed_at_call_site)
               default_config (mkConfig 10 0 12 15)).
  - reflexivity.
  - reflexivity.
Defined.

(** ** The name mapping *)

Lemma split1_found (sep : ascii) (line : string) :
  contains sep line = true →
  ∃ a b, line = (a ++ String sep b)%string
         ∧ contains sep a = false
         ∧ split1 sep line = [a; b].
Proof.
  induction line as [|c s IH]; [discriminate|].
  cbn [contains split1]. destruct (Ascii.eqb c sep) eqn:Ec.
  - intros _. apply Ascii.eqb_eq in Ec as ->. by exists EmptyString, s.
  - intros Hs. destruct (IH Hs) as (a & b & -> & Ha & ->).
    exists (String c a), b. cbn [contains]. by rewrite Ec.
Qed.

Lemma split1_not_found (sep : ascii) (line : string) :
  contains sep line = false → split1 sep line = [line].
Proof.
  induction line as [|c s IH]; [done|].
  cbn [contains split1]. destruct (Ascii.eqb c sep); [discriminate|].
  intros Hs. by rewrite (IH Hs).
Qed.

Lemma cut_without_comma (line : string) :
  contains comma line = false →
  SpecNames.cut_at_first_separator line
  = match split1 tab line with [a; b] => Some (a, b) | _ => None end.
Proof.
  induction line as [|c s IH]; [done|].
  cbn [contains SpecNames.cut_at_first_separator split1].
  unfold SpecNames.is_separator.
  destruct (Ascii.eqb c comma); [discriminate|]. intros Hs.
  rewrite orb_false_r. destruct (Ascii.eqb c tab); [done|].
  rewrite (IH Hs). by destruct (split1 tab s) as [|p [|q [|r ps]]].
Qed.

Lemma cut_without_tab (line : string) :
  contains tab line = false →
  SpecNames.cut_at_first_separator line
  = match split1 comma line with [a; b] => Some (a, b) | _ => None end.
Proof.
  induction line as [|c s IH]; [done|].
  cbn [contains SpecNames.cut_at_first_separator split1].
  unfold SpecNames.is_separator.
  destruct (Ascii.eqb c tab); [discriminate|]. intros Hs.
  rewrite orb_false_l. destruct (Ascii.eqb c comma); [done|].
  rewrite (IH Hs). by destruct (split1 comma s) as [|p [|q [|r ps]]].
Qed.

(** C7, as the code has it.  A line that holds a tab is cut at its first
    tab, even when a comma comes earlier; a line without tab that holds a
    comma is cut at its first comma; the two parts are stripped; a line
    with neither is skipped.  For a line that does not hold both
    characters this is the cut at the first separator. *)
Theorem parse_line_tab_before_comma (line : string) :
  (contains tab line = true →
   ∃ a b, line = (a ++ String tab b)%string
          ∧ contains tab a = false
          ∧ parse_line line = Some (strip a, strip b))
  ∧ (contains tab line = false → contains comma line = true →
     ∃ a b, line = (a ++ String comma b)%string
            ∧ contains comma a = false
            ∧ parse_line line = Some (strip a, strip b))
  ∧ (contains tab line = false → contains comma line = false →
     parse_line line = None)
  ∧ (contains tab line = false ∨ contains comma line = false →
     parse_line line = SpecNames.parse_line line).
Proof.
  unfold parse_line, SpecNames.parse_line.
  split; [|split; [|split]].
  - intros Ht. rewrite Ht.
    destruct (split1_found tab line Ht) as (a & b & -> & Ha & E).
    exists a, b. simpl. by rewrite E.
  - intros Ht Hc. rewrite Ht, Hc.
    destruct (split1_found comma line Hc) as (a & b & -> & Ha & E).
    exists a, b. simpl. by rewrite E.
  - intros Ht Hc. by rewrite Ht, Hc.
  - intros Hone. destruct (contains tab line) eqn:Ht.
    + destruct Hone as [|Hc]; [discriminate|].
      rewrite (cut_without_comma line Hc). simpl.
      by destruct (split1 tab line) as [|p [|q [|r ps]]].
    + rewrite (cut_without_tab line Ht).
      destruct (contains comma line) eqn:Hc; simpl.
      * by destruct (split1 comma line) as [|p [|q [|r ps]]].
      * by rewrite (split1_not_found comma line Hc).
Qed.

Lemma parse_line_tab_before_comma_witness :
  ∃ a b, AB_tab_C = (a ++ String tab b)%string
         ∧ contains tab a = false
         ∧ parse_line AB_tab_C = Some (strip a, strip b).
Proof.
  apply (proj1 (parse_line_tab_before_comma AB_tab_C)).
  reflexivity.
Defined.

(** C7, as it is stated, fails on a line with a comma before a tab: the
    code cuts it at the tab, the first separator is the comma. *)
Lemma parse_line_not_at_first_separator :
  parse_line AB_tab_C = Some ("A,B", "C")
  ∧ SpecNames.parse_line AB_tab_C
    = Some ("A", String "B" (String tab (String "C" "")))
  ∧ parse_line AB_tab_C ≠ SpecNames.parse_line AB_tab_C.
Proof. split; [|split]; [reflexivity | reflexivity | discriminate]. Qed.

(** ** The scenarios of the specification, section 8 *)

Example scenario1 :
  classify_asin [obs 6 (-13.95); obs 5 (-9.83); obs 9 (-17.99); obs 20 17.76]
                10 12 15
  = Ok (tuple_of CatA).
Proof. reflexivity. Qed.

Example scenario2 : classify_asin [obs 20 40.53] 10 12 15 = Ok (tuple_of CatA).
Proof. reflexivity. Qed.

Example scenario3 :
  classify_asin [obs 6 16.80; obs 7 11.05] 10 12 15 = Ok (tuple_of CatB).
Proof. reflexivity. Qed.

Example scenario4 :
  classify_asin [obs 12 (-5.78); obs 5 (-15.46)] 10 12 15
  = Ok (tuple_of CatC).
Proof. reflexivity. Qed.

Example scenario5 : classify_asin [obs 3 7] 10 12 15 = Ok (tuple_of CatD).
Proof. reflexivity. Qed.

(** Rule C needs the deep band to stay below the threshold: a deep maximum
    equal to it falls through to D. *)
Example deep_at_threshold :
  classify_asin [obs 6 (-4); obs 20 10] 10 12 15 = Ok (tuple_of CatD).
Proof. reflexivity. Qed.

(** The sample table, with one product named. *)
Example sample_report :
  df_result (on_generate default_config sample_data
               ("B0SAMPLE03" ++ String tab "Name3")%string initial_state)
  = Some [ mkReportRow "B0SAMPLE01" "" "A. 閾値突破型" "20%オフ推奨" 1500;
           mkReportRow "B0SAMPLE02" "" "A. 閾値突破型" "20%オフ推奨" 3000;
           mkReportRow "B0SAMPLE03" "Name3" "B. 軽値引き反応型"
                       "5-10%オフ推奨" 1800;
           mkReportRow "B0SAMPLE04" "" "C. 低空飛行型" "セール見送り" 1545 ].
Proof. vm_compute. reflexivity. Qed.

(** Two pasted lines, the second without separator. *)
Example two_lines :
  parse_asin_names
    (" B01" ++ String tab "First , name "
     ++ String newline "B02 no separator")%string
  = {[ "B01" := "First , name" ]}.
Proof.
  apply map_eq. intros k. vm_compute parse_asin_names. reflexivity.
Qed.

(** * Further properties of the code *)

(** ** The classifier, read on the observations *)

Lemma Series_max_above (l : list Q) (b : Q) :
  (∃ m, Series_max l = Some m ∧ (b < m)%Q) ↔ ∃ x, x ∈ l ∧ (b < x)%Q.
Proof.
  split.
  - intros (m & [Hin Hub]%Series_max_is_max & Hb). by exists m.
  - intros (x & Hx & Hb).
    destruct (Series_max l) as [m|] eqn:Hm.
    + exists m. split; [done|].
      apply Series_max_is_max in Hm as [_ Hub].
      eapply Qlt_le_trans; [apply Hb | by apply Hub].
    + apply Series_max_None in Hm. subst l.
      by apply not_elem_of_nil in Hx.
Qed.

Lemma deep_elasticity_above (dm th : Q) (series : list Row) :
  (∃ d, deep_elasticity dm series = Some d ∧ (th < d)%Q)
  ↔ ∃ o, o ∈ series ∧ (dm <= discount_pct o)%Q ∧ (th < elasticity o)%Q.
Proof.
  rewrite deep_elasticity_eq, Series_max_above. unfold deep_data. split.
  - intros (x & (o & -> & [Hband Ho]%list_elem_of_filter)%list_elem_of_fmap
              & Hgt).
    by exists o.
  - intros (o & Ho & Hband & Hgt). exists (elasticity o). split; [|done].
    apply list_elem_of_fmap. exists o. split; [done|].
    by apply list_elem_of_filter.
Qed.

Lemma light_elasticity_max_above (lm b : Q) (series : list Row) :
  (∃ m, light_elasticity_max lm series = Some m ∧ (b < m)%Q)
  ↔ ∃ o, o ∈ series
         ∧ ((5 <= discount_pct o)%Q ∧ (discount_pct o <= lm)%Q)
         ∧ (b < elasticity o)%Q.
Proof.
  rewrite light_elasticity_max_eq, Series_max_above. unfold light_data.
  split.
  - intros (x & (o & -> & [Hband Ho]%list_elem_of_filter)%list_elem_of_fmap
              & Hgt).
    by exists o.
  - intros (o & Ho & Hband & Hgt). exists (elasticity o). split; [|done].
    apply list_elem_of_fmap. exists o. split; [done|].
    by apply list_elem_of_filter.
Qed.

Lemma exists_and_gt_iff (v : option Q) (b : Q) :
  Spec.exists_and v (λ x, (x > b)%Q) = true ↔ ∃ x, v = Some x ∧ (b < x)%Q.
Proof.
  destruct v as [x|]; simpl.
  - rewrite bool_decide_eq_true. split; [eauto|]. by intros (? & [= <-] & ?).
  - split; [done|]. by intros (? & [=] & _).
Qed.

(** X1. One observation in the deep band with an elasticity above
    threshold_high is what gives A, and nothing else does; B is given by
    one observation in the light band above half the threshold, when no
    deep observation gives A. *)
Theorem classify_asin_A_B_by_observation
    (series : list Row) (threshold_high light_max deep_min : Q) :
  let some_deep_above := ∃ o, o ∈ series
       ∧ (deep_min <= discount_pct o)%Q
       ∧ (threshold_high < elasticity o)%Q in
  let some_light_above := ∃ o, o ∈ series
       ∧ ((5 <= discount_pct o)%Q ∧ (discount_pct o <= light_max)%Q)
       ∧ (threshold_high / 2 < elasticity o)%Q in
  (classify_asin series threshold_high light_max deep_min
   = Ok (tuple_of CatA) ↔ some_deep_above)
  ∧ (classify_asin series threshold_high light_max deep_min
     = Ok (tuple_of CatB) ↔ ¬ some_deep_above ∧ some_light_above).
Proof.
  intros A B. subst A B.
  rewrite <- deep_elasticity_above, <- light_elasticity_max_above.
  rewrite <- !exists_and_gt_iff.
  rewrite classify_asin_first_match. unfold Spec.first_match.
  destruct (Spec.exists_and (deep_elasticity _ _) _);
    destruct (Spec.exists_and (light_elasticity_max _ _) _);
    try destruct (_ && _); split; split;
      try (intros [= H]; done); try done; try (intros [? ?]; done).
Qed.

(** X2. Observations outside both bands (below 5 percent, or between
    light_max and deep_min) never count: dropping them leaves the result
    as it is. *)
Theorem classify_asin_only_band_observations
    (series : list Row) (threshold_high light_max deep_min : Q) :
  classify_asin (filter (in_some_band light_max deep_min) series)
                threshold_high light_max deep_min
  = classify_asin series threshold_high light_max deep_min.
Proof.
  assert (deep_data deep_min
            (filter (in_some_band light_max deep_min) series)
          = deep_data deep_min series) as Hd.
  { unfold deep_data. apply list_filter_filter_l.
    intros o Ho. by left. }
  assert (light_data light_max
            (filter (in_some_band light_max deep_min) series)
          = light_data light_max series) as Hl.
  { unfold light_data. apply list_filter_filter_l.
    intros o Ho. by right. }
  unfold classify_asin.
  by rewrite !deep_elasticity_eq, !light_elasticity_max_eq,
             !light_elasticity_avg_eq, Hd, Hl.
Qed.

(** X3. Without an observation in the deep band the result is never A;
    without an observation in the light band it is A or D, never B or C. *)
Theorem classify_asin_needs_band_data
    (series : list Row) (threshold_high light_max deep_min : Q) :
  (Forall (λ o, ¬ (deep_min <= discount_pct o)%Q) series →
   classify_asin series threshold_high light_max deep_min
   ≠ Ok (tuple_of CatA))
  ∧ (Forall (λ o, ¬ ((5 <= discount_pct o)%Q
                     ∧ (discount_pct o <= light_max)%Q)) series →
     classify_asin series threshold_high light_max deep_min
     = Ok (tuple_of CatA)
     ∨ classify_asin series threshold_high light_max deep_min
       = Ok (tuple_of CatD)).
Proof.
  rewrite classify_asin_first_match. unfold Spec.first_match. split.
  - intros Hdeep.
    assert (deep_elasticity deep_min series = None) as ->.
    { unfold deep_elasticity, deep_data. by rewrite filter_none. }
    simpl. destruct (Spec.exists_and _ _); [done|].
    by destruct (_ && _).
  - intros Hlight.
    assert (light_elasticity_max light_max series = None) as ->.
    { unfold light_elasticity_max, light_data. by rewrite filter_none. }
    assert (light_elasticity_avg light_max series = None) as ->.
    { unfold light_elasticity_avg, light_data. by rewrite filter_none. }
    simpl. destruct (Spec.exists_and _ _); auto.
Qed.

Lemma classify_asin_needs_band_data_witness :
  classify_asin [obs 6 16.80; obs 7 11.05] 10 12 15 ≠ Ok (tuple_of CatA)
  ∧ (classify_asin [obs 20 40.53] 10 12 15 = Ok (tuple_of CatA)
     ∨ classify_asin [obs 20 40.53] 10 12 15 = Ok (tuple_of CatD)).
Proof.
  split.
  - apply (proj1 (classify_asin_needs_band_data
                    [obs 6 16.80; obs 7 11.05] 10 12 15)).
    apply (bool_decide_unpack _). vm_compute. exact I.
  - apply (proj2 (classify_asin_needs_band_data [obs 20 40.53] 10 12 15)).
    apply (bool_decide_unpack _). vm_compute. exact I.
Defined.

(** X4. A product whose light band has a negative mean and no elasticity
    above half the threshold is C, except in one case: it is D when its
    deep-band maximum equals threshold_high, which is neither above the
    threshold (A) nor below it (C). *)
Theorem classify_asin_deep_at_threshold
    (series : list Row) (threshold_high light_max deep_min a m : Q) :
  light_elasticity_avg light_max series = Some a → (a < 0)%Q →
  light_elasticity_max light_max series = Some m →
  (m <= threshold_high / 2)%Q →
  (classify_asin series threshold_high light_max deep_min
   = Ok (tuple_of CatD)
   ↔ ∃ d, deep_elasticity deep_min series = Some d
          ∧ (d == threshold_high)%Q)
  ∧ (classify_asin series threshold_high light_max deep_min
     = Ok (tuple_of CatC)
     ↔ deep_elasticity deep_min series = None
       ∨ ∃ d, deep_elasticity deep_min series = Some d
              ∧ (d < threshold_high)%Q).
Proof.
  intros Ha Hneg Hm Hle.
  rewrite classify_asin_first_match. unfold Spec.first_match.
  rewrite Ha, Hm. simpl.
  rewrite (bool_decide_eq_false_2 (threshold_high / 2 < m)%Q)
    by by apply Qle_not_lt.
  rewrite (bool_decide_eq_true_2 (a < 0)%Q) by done.
  destruct (deep_elasticity deep_min series) as [d|]; simpl.
  - destruct (Q_dec d threshold_high) as [[Hlt|Hgt]|Heq].
    + rewrite bool_decide_eq_false_2 by (apply Qle_not_lt; by apply Qlt_le_weak).
      rewrite bool_decide_eq_true_2 by done. simpl. split; split.
      * done.
      * intros (d' & [= <-] & Heq). rewrite Heq in Hlt.
        by apply Qlt_irrefl in Hlt.
      * right. by exists d.
      * done.
    + rewrite bool_decide_eq_true_2 by done. split; split.
      * done.
      * intros (d' & [= <-] & Heq). rewrite Heq in Hgt.
        by apply Qlt_irrefl in Hgt.
      * done.
      * intros [|(d' & [= <-] & Hlt)]; [done|].
        exfalso. apply (Qlt_irrefl d). by eapply Qlt_trans.
    + rewrite !bool_decide_eq_false_2
        by (rewrite Heq; apply Qlt_irrefl). simpl. split; split.
      * intros _. by exists d.
      * done.
      * done.
      * intros [|(d' & [= <-] & Hlt)]; [done|].
        rewrite Heq in Hlt. by apply Qlt_irrefl in Hlt.
  - split; split; try done.
    + intros (d & [=] & _).
    + by left.
Qed.

Lemma classify_asin_deep_at_threshold_witness :
  classify_asin [obs 6 (-4); obs 20 10] 10 12 15 = Ok (tuple_of CatD)
  ↔ ∃ d, deep_elasticity 15 [obs 6 (-4); obs 20 10] = Some d
         ∧ (d == 10)%Q.
Proof.
  apply (classify_asin_deep_at_threshold
           [obs 6 (-4); obs 20 10] 10 12 15 (-4 / 1)%Q (-4)%Q);
    reflexivity || discriminate.
Defined.

Lemma Series_sum_neg (l : list Q) :
  l ≠ [] → Forall (λ x, (x < 0)%Q) l → (Series_sum l < 0)%Q.
Proof.
  intros Hne HF. induction HF as [|x l Hx HF IH]; [done|].
  cbn [Series_sum foldr]. fold (Series_sum l).
  destruct l as [|y l].
  - simpl. by rewrite Qplus_0_r.
  - eapply Qlt_le_trans.
    + apply (Qplus_lt_le_compat x 0 _ 0); [done|].
      apply Qlt_le_weak. by apply IH.
    + discriminate.
Qed.

Lemma Series_mean_neg (l : list Q) (a : Q) :
  Forall (λ x, (x < 0)%Q) l → Series_mean l = Some a → (a < 0)%Q.
Proof.
  intros HF. destruct l as [|x l]; [discriminate|].
  cbn [Series_mean]. intros [= <-].
  apply Qlt_shift_div_r.
  - change 0%Q with (inject_Z 0). rewrite <- Zlt_Qlt. simpl. lia.
  - rewrite Qmult_0_l. by apply (Series_sum_neg (x :: l)).
Qed.

Lemma Series_max_below (l : list Q) (m b : Q) :
  Forall (λ x, (x < b)%Q) l → Series_max l = Some m → (m < b)%Q.
Proof.
  intros HF [Hin _]%Series_max_is_max.
  rewrite Forall_forall in HF. by apply HF.
Qed.

(** X5. With a threshold that is not negative, a product that has
    observations in the light band, all of negative elasticity, and whose
    deep-band observations, if any, all stay below threshold_high, is C. *)
Theorem classify_asin_all_negative
    (series : list Row) (threshold_high light_max deep_min : Q) :
  (0 <= threshold_high)%Q →
  (∃ o, o ∈ series
        ∧ (5 <= discount_pct o)%Q ∧ (discount_pct o <= light_max)%Q) →
  Forall (λ o, (5 <= discount_pct o)%Q ∧ (discount_pct o <= light_max)%Q →
               (elasticity o < 0)%Q) series →
  Forall (λ o, (deep_min <= discount_pct o)%Q →
               (elasticity o < threshold_high)%Q) series →
  classify_asin series threshold_high light_max deep_min
  = Ok (tuple_of CatC).
Proof.
  intros Hth (o & Ho & Hband) Hlight Hdeep.
  assert (Forall (λ x, (x < 0)%Q)
                 (elasticity <$> light_data light_max series)) as HL.
  { apply Forall_fmap, Forall_forall.
    intros r [Hr Hin]%list_elem_of_filter.
    rewrite Forall_forall in Hlight. by apply Hlight. }
  assert (Forall (λ x, (x < threshold_high)%Q)
                 (elasticity <$> deep_data deep_min series)) as HD.
  { apply Forall_fmap, Forall_forall.
    intros r [Hr Hin]%list_elem_of_filter.
    rewrite Forall_forall in Hdeep. by apply Hdeep. }
  assert (light_data light_max series ≠ []) as Hne.
  { intros E. assert (o ∈ light_data light_max series) as Hin
      by by apply list_elem_of_filter.
    rewrite E in Hin. by apply not_elem_of_nil in Hin. }
  rewrite classify_asin_first_match. unfold Spec.first_match.
  rewrite deep_elasticity_eq, light_elasticity_max_eq,
          light_elasticity_avg_eq.
  destruct (Series_mean _) as [a|] eqn:Ha.
  2: { destruct (light_data light_max series); [done|discriminate]. }
  destruct (Series_max (elasticity <$> light_data _ _)) as [m|] eqn:Hm.
  2: { apply Series_max_None, fmap_nil_inv in Hm. done. }
  pose proof (Series_mean_neg _ _ HL Ha) as Hneg.
  pose proof (Series_max_below _ _ _ HL Hm) as Hmneg.
  assert (¬ (threshold_high / 2 < m)%Q) as Hb.
  { apply Qle_not_lt. apply Qlt_le_weak.
    eapply Qlt_le_trans; [apply Hmneg|].
    apply Qle_shift_div_l; [done|]. by rewrite Qmult_0_l. }
  simpl.
  rewrite (bool_decide_eq_false_2 _ Hb), (bool_decide_eq_true_2 _ Hneg).
  destruct (Series_max (elasticity <$> deep_data _ _)) as [d|] eqn:Hd;
    simpl; [|done].
  pose proof (Series_max_below _ _ _ HD Hd) as Hlt.
  rewrite bool_decide_eq_false_2
    by (apply Qle_not_lt; by apply Qlt_le_weak).
  by rewrite bool_decide_eq_true_2.
Qed.

Lemma classify_asin_all_negative_witness :
  classify_asin [obs 12 (-5.78); obs 5 (-15.46); obs 20 3] 10 12 15
  = Ok (tuple_of CatC).
Proof.
  apply classify_asin_all_negative.
  - discriminate.
  - exists (obs 12 (-5.78)). split; [apply list_elem_of_here|].
    split; discriminate.
  - repeat apply Forall_cons_2; try apply Forall_nil_2; intros H;
      first [ reflexivity
            | exfalso; apply (proj1 H); reflexivity
            | exfalso; apply (proj2 H); reflexivity ].
  - repeat apply Forall_cons_2; try apply Forall_nil_2; intros H;
      first [ reflexivity | exfalso; apply H; reflexivity ].
Defined.

(** ** The traces of the chart *)

Lemma traces_add_traces (ts : list Scatter) (fig : Figure) :
  traces (add_traces ts fig) = traces fig ++ ts.
Proof.
  revert fig. induction ts as [|t ts IH]; intros fig; simpl.
  - by rewrite app_nil_r.
  - unfold add_traces in *. simpl. rewrite IH. simpl.
    by rewrite <- app_assoc.
Qed.

Lemma rows_of_nonempty (df : DataFrame) (asin : string) :
  asin ∈ ASIN <$> df → rows_of df asin ≠ [].
Proof.
  intros (r & -> & Hr)%list_elem_of_fmap E.
  assert (r ∈ rows_of df (ASIN r)) as Hin.
  { unfold rows_of. rewrite sort_values_Permutation.
    by apply list_elem_of_filter. }
  rewrite E in Hin. by apply not_elem_of_nil in Hin.
Qed.

(** One turn of the loop for a product of the table adds one row and one
    trace. *)
Lemma plot_asin_trace (df : DataFrame) (names : gmap string string) (th : Q)
    (fig : Figure) (res : list ReportRow) (i : nat) (asin : string) :
  asin ∈ ASIN <$> df →
  ∃ r t, plot_asin df names th (fig, res) (i, asin)
         = Ok (add_trace t fig, res ++ [r])
         ∧ r_ASIN r = asin
         ∧ trace_of_product df names i r t.
Proof.
  intros Hin. pose proof (rows_of_nonempty df asin Hin) as Hne.
  unfold plot_asin, trace_of_product.
  destruct (rows_of df asin) as [|o os] eqn:E; [done|].
  rewrite bool_decide_eq_false_2 by discriminate.
  unfold getitem. change (length colors) with 10.
  destruct (lookup_lt_is_Some_2 colors (i mod 10)) as [c Hc].
  { apply Nat.mod_upper_bound. discriminate. }
  rewrite Hc, classify_asin_first_match. simpl.
  eexists _, _. split; [reflexivity|]. simpl. rewrite E.
  repeat split; try done. eexists. split; reflexivity.
Qed.

Lemma for_each_plot_asin_traces (df : DataFrame)
    (names : gmap string string) (th : Q) (asins : list string) :
  Forall (λ asin, asin ∈ ASIN <$> df) asins →
  ∀ (i : nat) (fig : Figure) (res : list ReportRow),
  ∃ rs ts,
    for_each (plot_asin df names th) (enumerate_from i asins) (fig, res)
    = Ok (add_traces ts fig, res ++ rs)
    ∧ r_ASIN <$> rs = asins
    ∧ length ts = length rs
    ∧ ∀ k r t, rs !! k = Some r → ts !! k = Some t →
               trace_of_product df names (i + k) r t.
Proof.
  induction 1 as [|asin asins Hin _ IH]; intros i fig res.
  - exists [], []. simpl. rewrite app_nil_r. repeat split; done.
  - cbn [enumerate_from for_each].
    destruct (plot_asin_trace df names th fig res i asin Hin)
      as (r & t & -> & Hid & Ht).
    destruct (IH (S i) (add_trace t fig) (res ++ [r]))
      as (rs & ts & Hloop & Hids & Hlen & Hall).
    exists (r :: rs), (t :: ts).
    split; [|split; [|split]].
    + change (Ok (add_trace t fig, res ++ [r]) ≫= _)
        with (for_each (plot_asin df names th) (enumerate_from (S i) asins)
                       (add_trace t fig, res ++ [r])).
      rewrite Hloop. by rewrite <- app_assoc.
    + by rewrite fmap_cons, Hid, Hids.
    + simpl. by rewrite Hlen.
    + intros [|k] r' t' Hr' Ht'; simplify_eq/=.
      * by rewrite Nat.add_0_r.
      * rewrite Nat.add_succ_r. by apply Hall.
Qed.

(** [generate_graph] with the traces it draws: one per row of the table,
    in the same order. *)
Lemma generate_graph_traces (df : DataFrame) (names : gmap string string)
    (th tl : Q) :
  ∃ (fig : Figure) (results : list ReportRow),
    generate_graph df names th tl = Ok (fig, results)
    ∧ r_ASIN <$> results = unique (ASIN <$> df)
    ∧ length (traces fig) = length results
    ∧ ∀ i r t, results !! i = Some r → traces fig !! i = Some t →
               trace_of_product df names i r t.
Proof.
  unfold generate_graph.
  match goal with
  | |- context [for_each _ (enumerate ?l) (?f, [])] =>
      destruct (for_each_plot_asin_traces df names th l) with
        (i := 0) (fig := f) (res := @nil ReportRow)
        as (rs & ts & Hloop & Hids & Hlen & Hall)
  end.
  { apply Forall_forall. intros id.
    by rewrite unique_first_appearances, first_appearances_elem. }
  unfold enumerate. rewrite Hloop. simpl.
  eexists _, _. split; [reflexivity|]. simpl.
  rewrite traces_add_traces. simpl. done.
Qed.

Lemma zip_columns {A B C} (f : A → B) (g : A → C) (l : list A) :
  zip (f <$> l) (g <$> l) = (λ a, (f a, g a)) <$> l.
Proof. induction l as [|a l IH]; [done|]. simpl. f_equal. exact IH. Qed.

(** X6. The chart has one trace per row of the table, in the same order.
    The trace of a product is drawn with lines and markers through the
    product's observations, no more and no fewer, by ascending discount;
    it is named by the mapped name, or by the id when there is none,
    followed by the category letter of the row in brackets. *)
Theorem chart_one_trace_per_product
    (df : DataFrame) (names : gmap string string) (th tl : Q) :
  ∃ (fig : Figure) (results : list ReportRow),
    generate_graph df names th tl = Ok (fig, results)
    ∧ length (traces fig) = length results
    ∧ ∀ i r t, results !! i = Some r → traces fig !! i = Some t →
        sc_mode t = "lines+markers"%string
        ∧ StronglySorted Qle (sc_x t)
        ∧ zip (sc_x t) (sc_y t)
          ≡ₚ (λ o, (discount_pct o, elasticity o))
             <$> SpecReport.observations df (r_ASIN r)
        ∧ ∃ c : Category,
            r_pattern r = (letter c ++ ". " ++ category_label c)%string
            ∧ sc_name t
              = (default (r_ASIN r) (names !! r_ASIN r)
                 ++ " (" ++ letter c ++ ")")%string.
Proof.
  destruct (generate_graph_traces df names th tl)
    as (fig & results & Hg & _ & Hlen & Hall).
  exists fig, results. split; [done|]. split; [done|].
  intros i r t Hr Ht.
  destruct (Hall i r t Hr Ht) as (Hx & Hy & Hmode & _ & Hname).
  split; [done|]. rewrite Hx, Hy. split; [|split; [|done]].
  - eapply StronglySorted_fmap; [|apply sort_values_sorted]. done.
  - rewrite zip_columns. unfold rows_of.
    by rewrite sort_values_Permutation.
Qed.


(** ** Sorting related tables *)

Section sort_related.

Context {A : Type} (R : relation A) `{∀ x y, Decision (R x y)}.
Context (S : relation A).
Hypothesis R_S : ∀ a a' b b', S a a' → S b b' → (R a b ↔ R a' b').

Lemma list_merge_Forall2 (l1 l1' l2 l2' : list A) :
  Forall2 S l1 l1' → Forall2 S l2 l2' →
  Forall2 S (list_merge R l1 l2) (list_merge R l1' l2').
Proof.
  intros H1. revert l2 l2'.
  induction H1 as [|x x' k k' Hx Hk IH1]; intros l2 l2' H2.
  - by rewrite !list_merge_nil_l.
  - induction H2 as [|y y' m m' Hy Hm IH2].
    + rewrite !list_merge_nil_r. by constructor.
    + rewrite !list_merge_cons.
      destruct (decide (R x y)) as [Hxy|Hxy],
               (decide (R x' y')) as [Hxy'|Hxy'].
      * constructor; [done|]. apply IH1. by constructor.
      * destruct Hxy'. by apply (R_S x x' y y').
      * destruct Hxy. by apply (R_S x x' y y').
      * constructor; [done|]. apply IH2.
Qed.

Lemma merge_list_to_stack_Forall2 (st st' : list (option (list A)))
    (l l' : list A) :
  Forall2 (option_Forall2 (Forall2 S)) st st' → Forall2 S l l' →
  Forall2 (option_Forall2 (Forall2 S))
          (merge_list_to_stack R st l) (merge_list_to_stack R st' l').
Proof.
  intros Hst. revert l l'.
  induction Hst as [|o o' st st' Ho Hst IH]; intros l l' Hl; simpl.
  - by repeat constructor.
  - destruct Ho as [k k' Hk|].
    + constructor; [constructor|]. apply IH.
      by apply list_merge_Forall2.
    + by repeat constructor.
Qed.

Lemma merge_stack_Forall2 (st st' : list (option (list A))) :
  Forall2 (option_Forall2 (Forall2 S)) st st' →
  Forall2 S (merge_stack R st) (merge_stack R st').
Proof.
  induction 1 as [|o o' st st' Ho Hst IH]; simpl; [constructor|].
  destruct Ho as [k k' Hk|]; [|done].
  by apply list_merge_Forall2.
Qed.

Lemma merge_sort_aux_Forall2 (st st' : list (option (list A)))
    (l l' : list A) :
  Forall2 (option_Forall2 (Forall2 S)) st st' → Forall2 S l l' →
  Forall2 S (merge_sort_aux R st l) (merge_sort_aux R st' l').
Proof.
  intros Hst Hl. revert st st' Hst.
  induction Hl as [|x x' l l' Hx Hl IH]; intros st st' Hst; simpl.
  - by apply merge_stack_Forall2.
  - apply IH. apply merge_list_to_stack_Forall2; [done|].
    by repeat constructor.
Qed.

Lemma merge_sort_Forall2 (l l' : list A) :
  Forall2 S l l' → Forall2 S (merge_sort R l) (merge_sort R l').
Proof. intros Hl. apply merge_sort_aux_Forall2; [constructor|done]. Qed.

End sort_related.

Lemma filter_Forall2 {A} (S : relation A) (P : A → Prop)
    `{∀ x, Decision (P x)} (l l' : list A) :
  (∀ a b, S a b → (P a ↔ P b)) →
  Forall2 S l l' → Forall2 S (filter P l) (filter P l').
Proof.
  intros HP. induction 1 as [|a b l l' Hab Hl IH]; [constructor|].
  rewrite !filter_cons.
  destruct (decide (P a)) as [Ha|Ha], (decide (P b)) as [Hb|Hb].
  - by constructor.
  - destruct Hb. by apply (HP a b).
  - destruct Ha. by apply (HP a b).
  - done.
Qed.

Lemma rows_of_same_columns (df df' : DataFrame) (asin : string) :
  Forall2 same_columns df df' →
  Forall2 same_columns (rows_of df asin) (rows_of df' asin).
Proof.
  intros HF. unfold rows_of, sort_values.
  apply merge_sort_Forall2.
  - intros a a' b b' (_ & _ & _ & Ha) (_ & _ & _ & Hb).
    unfold by_discount_pct. by rewrite Ha, Hb.
  - apply filter_Forall2; [|done].
    intros a b (Hid & _). by rewrite Hid.
Qed.

Lemma same_columns_column (f : Row → Q) (l l' : list Row) :
  (∀ a b, same_columns a b → f a = f b) →
  Forall2 same_columns l l' → f <$> l = f <$> l'.
Proof.
  intros Hf. induction 1 as [|a b l l' Hab _ IH]; [done|].
  by rewrite !fmap_cons, (Hf a b Hab), IH.
Qed.

Lemma for_each_ext {St A} (body body' : St → A → result St) (l : list A)
    (st : St) :
  (∀ s a, body s a = body' s a) → for_each body l st = for_each body' l st.
Proof.
  intros Hb. revert st. induction l as [|a l IH]; intros st; [done|].
  simpl. rewrite Hb. destruct (body' st a); simpl; [apply IH|done].
Qed.

Lemma plot_asin_same_columns (df df' : DataFrame)
    (names : gmap string string) (th : Q) (st : Figure * list ReportRow)
    (ia : nat * string) :
  Forall2 same_columns df df' →
  plot_asin df names th st ia = plot_asin df' names th st ia.
Proof.
  intros HF. destruct st as [fig res], ia as [i asin].
  pose proof (rows_of_same_columns df df' asin HF) as HR.
  unfold plot_asin.
  rewrite (Forall2_length _ _ _ HR).
  rewrite (same_columns_column discount_pct _ _ ltac:(by intros ?? (?&?&?&?)) HR).
  rewrite (same_columns_column elasticity _ _ ltac:(by intros ?? (?&?&?&?)) HR).
  rewrite (same_columns_column list_price _ _ ltac:(by intros ?? (?&?&?&?)) HR).
  rewrite (classify_asin_first_match (rows_of df asin)).
  rewrite (classify_asin_first_match (rows_of df' asin)).
  assert (Forall2 same_point (rows_of df asin) (rows_of df' asin)) as HS.
  { eapply Forall2_impl; [apply HR|]. by intros a b (_ & _ & He & Hp). }
  rewrite (deep_elasticity_same _ _ HS).
  rewrite !light_elasticity_max_eq, !light_elasticity_avg_eq.
  by rewrite (light_data_same _ _ HS).
Qed.

Lemma generate_graph_same_columns
    (df df' : DataFrame) (names : gmap string string) (th tl : Q) :
  Forall2 same_columns df df' →
  generate_graph df names th tl = generate_graph df' names th tl.
Proof.
  intros HF. unfold generate_graph.
  assert (ASIN <$> df = ASIN <$> df') as ->.
  { clear -HF. induction HF as [|a b l l' (Hid & _) _ IH]; [done|].
    by rewrite !fmap_cons, Hid, IH. }
  by rewrite (for_each_ext (plot_asin df names th) (plot_asin df' names th)
                _ _ (λ s a, plot_asin_same_columns df df' names th s a HF)).
Qed.

(** X8. The raw discount rate and the demand change of a row are not
    read once the percentage is there: two tables that agree on the id,
    the list price, the elasticity and the discount percentage of every
    row give the same figure and the same report. *)
Theorem generate_graph_ignores_rate_and_demand
    (df df' : DataFrame) (names : gmap string string) (th tl : Q) :
  Forall2 same_columns df df' →
  generate_graph df names th tl = generate_graph df' names th tl.
Proof. apply generate_graph_same_columns. Qed.

Lemma generate_graph_ignores_rate_and_demand_witness :
  generate_graph [obs_priced 12 (-5.784) 1539 (-0.694);
                  obs_priced 5 (-15.459) 1545 (-0.773)] ∅ 10 0
  = generate_graph [mkRow "B0SAMPLE04" 0.12 1539 8 (-5.784) 12;
                    mkRow "B0SAMPLE04" 5 1545 0 (-15.459) 5] ∅ 10 0.
Proof.
  apply generate_graph_ignores_rate_and_demand.
  repeat constructor.
Defined.

(** ** The generate button *)

Lemma Qabs_Qopp (x : Q) : Qabs (- x) = Qabs x.
Proof. destruct x as [n d]. simpl. by rewrite Z.abs_opp. Qed.

(** X9. The sign of the discount rate does not matter: a table in which
    some rates are written with the other sign gives the same session
    state. *)
Theorem on_generate_sign_of_discount
    (cfg : Config) (df df' : list InputRow) (asin_name_input : string)
    (st : SessionState) :
  Forall2 (λ r r', r' = r ∨ r' = negate_discount r) df df' →
  on_generate cfg df asin_name_input st
  = on_generate cfg df' asin_name_input st.
Proof.
  intros HF. unfold on_generate.
  rewrite (generate_graph_same_columns
             (add_discount_pct <$> df) (add_discount_pct <$> df')); [done|].
  apply Forall2_fmap. eapply Forall2_impl; [apply HF|].
  intros r r' [-> | ->]; [done|].
  unfold same_columns, add_discount_pct, negate_discount.
  cbn [ASIN list_price elasticity discount_pct in_ASIN in_discount
       in_list_price in_elasticity].
  by rewrite Qabs_Qopp.
Qed.

Lemma on_generate_sign_of_discount_witness :
  on_generate default_config twelve_percent "" initial_state
  = on_generate default_config
      [ mkInputRow "B0SAMPLE05" 0.12 2000 1.92 16 ] "" initial_state.
Proof.
  apply on_generate_sign_of_discount.
  constructor; [by right | constructor].
Defined.

Lemma first_appearances_length (l : list string) :
  length (SpecReport.first_appearances l)
  = size (list_to_set l : gset string).
Proof.
  rewrite <- (size_list_to_set (C := gset string)
               (SpecReport.first_appearances l))
    by apply first_appearances_NoDup.
  f_equal. apply set_eq. intros x.
  by rewrite !elem_of_list_to_set, first_appearances_elem.
Qed.

(** X10. Generating never takes the exception branch: whatever the table,
    the pasted names and the session before, the session afterwards holds
    a figure and a table and is marked as generated; the table has as many
    rows as the input has distinct ids, and nothing of the session before
    is kept. *)
Theorem on_generate_always_succeeds
    (cfg : Config) (df : list InputRow) (asin_name_input : string)
    (st : SessionState) :
  (∃ (f : Figure) (r : list ReportRow),
     on_generate cfg df asin_name_input st
     = {| fig := Some f; df_result := Some r; graph_generated := true |}
     ∧ length r = size (list_to_set (in_ASIN <$> df) : gset string))
  ∧ ∀ st', on_generate cfg df asin_name_input st'
           = on_generate cfg df asin_name_input st.
Proof.
  unfold on_generate.
  destruct (generate_graph_spec (add_discount_pct <$> df)
              (parse_asin_names asin_name_input)
              (threshold_high cfg) (threshold_low cfg)) as (f & -> & _).
  split; [|done].
  eexists _, _. split; [reflexivity|].
  rewrite <- (length_fmap r_ASIN), report_ids, first_appearances_length.
  by rewrite <- list_fmap_compose.
Qed.


(** What a turn of the loop adds does not depend on what is there. *)
Lemma plot_asin_uniform (df : DataFrame) (names : gmap string string)
    (th : Q) (i : nat) (asin : string) :
  ∃ ts rs, ∀ (fig : Figure) (res : list ReportRow),
    plot_asin df names th (fig, res) (i, asin)
    = Ok (add_traces ts fig, res ++ rs).
Proof.
  unfold plot_asin.
  destruct (rows_of df asin) as [|o os].
  - exists [], []. intros fig res. simpl. by rewrite app_nil_r.
  - rewrite bool_decide_eq_false_2 by discriminate.
    destruct (getitem_colors i) as [c ->].
    rewrite classify_asin_first_match. simpl.
    eexists [_], [_]. intros fig res. reflexivity.
Qed.

Lemma for_each_plot_asin_uniform (df : DataFrame)
    (names : gmap string string) (th : Q) (asins : list string) (i : nat) :
  ∃ ts rs, ∀ (fig : Figure) (res : list ReportRow),
    for_each (plot_asin df names th) (enumerate_from i asins) (fig, res)
    = Ok (add_traces ts fig, res ++ rs).
Proof.
  revert i. induction asins as [|asin asins IH]; intros i.
  - exists [], []. intros fig res. simpl. by rewrite app_nil_r.
  - destruct (plot_asin_uniform df names th i asin) as (ts & rs & Hone).
    destruct (IH (S i)) as (ts' & rs' & Hrest).
    exists (ts ++ ts'), (rs ++ rs'). intros fig res.
    cbn [enumerate_from for_each]. rewrite Hone.
    change (Ok (add_traces ts fig, res ++ rs) ≫= _)
      with (for_each (plot_asin df names th) (enumerate_from (S i) asins)
                     (add_traces ts fig, res ++ rs)).
    by rewrite Hrest, add_traces_app, app_assoc.
Qed.

(** X12. threshold_low moves the red band and the solid line and nothing
    else: the report, the traces, the layout and the other band and line
    are the same for any two values of it. *)
Theorem threshold_low_only_moves_its_zone
    (df : DataFrame) (names : gmap string string) (th tl tl' : Q) :
  ∃ (fig fig' : Figure) (results : list ReportRow),
    generate_graph df names th tl = Ok (fig, results)
    ∧ generate_graph df names th tl' = Ok (fig', results)
    ∧ traces fig = traces fig'
    ∧ layout fig = layout fig'
    ∧ xaxes fig = xaxes fig' ∧ yaxes fig = yaxes fig'
    ∧ hrects fig !! 0 = hrects fig' !! 0
    ∧ hlines fig !! 1 = hlines fig' !! 1.
Proof.
  unfold generate_graph.
  destruct (for_each_plot_asin_uniform df names th
              (unique (ASIN <$> df)) 0) as (ts & rs & Hloop).
  unfold enumerate. rewrite !Hloop. simpl.
  eexists _, _, _. split; [reflexivity|]. split; [reflexivity|]. simpl.
  rewrite !traces_add_traces.
  match goal with
  | |- context [hrects (add_traces ts ?f) !! 0 = hrects (add_traces ts ?f') !! 0] =>
      destruct (add_traces_static ts f) as (-> & -> & _);
      destruct (add_traces_static ts f') as (-> & -> & _)
  end.
  done.
Qed.

(** ** The pasted names *)

Lemma names_given_cons (k line : string) (lines : list string) :
  names_given k (line :: lines)
  = match parse_line line with
    | Some (k', v) => if decide (k' = k) then v :: names_given k lines
                      else names_given k lines
    | None => names_given k lines
    end.
Proof.
  unfold names_given. simpl. destruct (parse_line line) as [[k' v]|]; [|done].
  rewrite filter_cons. simpl. by destruct (decide (k' = k)).
Qed.

Lemma foldl_names_lookup (lines : list string) (d : gmap string string)
    (k : string) :
  foldl (λ d line, match parse_line line with
                   | Some (k, v) => <[k := v]> d
                   | None => d
                   end) d lines !! k
  = match last (names_given k lines) with
    | Some v => Some v
    | None => d !! k
    end.
Proof.
  revert d. induction lines as [|line lines IH]; intros d; [done|].
  cbn [foldl]. rewrite IH, names_given_cons.
  destruct (parse_line line) as [[k' v]|]; [|done].
  destruct (decide (k' = k)) as [->|Hne].
  - rewrite last_cons, lookup_insert_eq.
    by destruct (last (names_given k lines)).
  - by rewrite lookup_insert_ne.
Qed.

Lemma strip_empty : strip "" = ""%string.
Proof. reflexivity. Qed.

Lemma parse_asin_names_lookup (asin_name_input k : string) :
  parse_asin_names asin_name_input !! k
  = last (names_given k (split newline (strip asin_name_input))).
Proof.
  unfold parse_asin_names.
  destruct (negb (bool_decide (asin_name_input = ""%string))
            && negb (bool_decide (strip asin_name_input = ""%string)))
    eqn:Hguard.
  - rewrite foldl_names_lookup, lookup_empty.
    by destruct (last _).
  - assert (strip asin_name_input = ""%string) as ->.
    { apply andb_false_iff in Hguard as [H|H];
        apply negb_false_iff, bool_decide_eq_true in H; [by subst|done]. }
    by rewrite lookup_empty.
Qed.

(** X13. The name recorded for an id is the one given by the last line
    of the stripped input that names this id; an id that no line names
    has no entry. *)
Theorem parse_asin_names_last_line_wins (asin_name_input k : string) :
  parse_asin_names asin_name_input !! k
  = last (names_given k (split newline (strip asin_name_input))).
Proof. apply parse_asin_names_lookup. Qed.



(** *** White space at the two ends *)














